(** * Batch plant production assistant: telemetry client, recipe storage, tools

    A shallow embedding of the Python sources

    - [batch_plant_functions.py]  (OPC UA client, machine-state decoder,
                                   standalone telemetry queries),
    - [batch_plant_storage.py]    (recipe lookup in the plant database),
    - [tools.py]                  (synchronous tool wrappers),

    followed by the properties established about them.  [main.py] drives
    a language-model agent over the three tools and prints its answer; it
    holds no plant logic of its own and is not embedded.

    Python exceptions are modelled by an outcome type, mutation and I/O by a
    state-and-exception monad in which the state survives a raised
    exception (as a Python object's fields and the outside world do).  The
    [asyncua] client and the [psycopg2] connection are outside the
    repository: they appear as test doubles that record every call and
    answer it from a script. *)

From Stdlib Require Import ZArith String Ascii List Bool Lia.
From Stdlib Require Import DecimalString DecimalZ DecimalPos.
From Stdlib Require Import Sorting.Sorted Sorting.Permutation.
Import ListNotations.

Local Open Scope string_scope.
Local Open Scope Z_scope.

(* ===================================================================== *)
(** ** Python runtime: exceptions, outcomes, the effect monad            *)
(* ===================================================================== *)

(** The exception classes that matter to the [except] clauses of the
    sources.  [BaseExceptionOnly] stands for the classes that derive from
    [BaseException] but not from [Exception] ([KeyboardInterrupt],
    [asyncio.CancelledError]). *)
Inductive ExnClass : Type :=
| ValueError
| TypeError
| OverflowError
| AttributeError
| Psycopg2Error
| OtherException
| BaseExceptionOnly.

Record Exn : Type := mkExn { exn_class : ExnClass; exn_str : string }.

(** [isinstance(e, Exception)] *)
Definition isinstance_Exception (e : Exn) : bool :=
  match exn_class e with
  | BaseExceptionOnly => false
  | _ => true
  end.

(** [isinstance(e, ValueError)] *)
Definition isinstance_ValueError (e : Exn) : bool :=
  match exn_class e with
  | ValueError => true
  | _ => false
  end.

(** [isinstance(e, psycopg2.Error)] *)
Definition isinstance_psycopg2_Error (e : Exn) : bool :=
  match exn_class e with
  | Psycopg2Error => true
  | _ => false
  end.

Inductive Outcome (A : Type) : Type :=
| Return (a : A)
| Raise (e : Exn).
Arguments Return {A} a.
Arguments Raise {A} e.

(** Computations over a mutable state [S] that may raise. *)
Definition M (S A : Type) : Type := S -> Outcome A * S.

Definition ret {S A : Type} (a : A) : M S A := fun s => (Return a, s).

Definition raise {S A : Type} (e : Exn) : M S A := fun s => (Raise e, s).

Definition bind {S A B : Type} (m : M S A) (k : A -> M S B) : M S B :=
  fun s =>
    match m s with
    | (Return a, s') => k a s'
    | (Raise e, s') => (Raise e, s')
    end.

Declare Scope py_scope.
Delimit Scope py_scope with py.
Notation "x <- m ;; k" := (bind m (fun x => k))
  (at level 61, m at next level, right associativity) : py_scope.
Notation "m ;; k" := (bind m (fun _ => k))
  (at level 61, right associativity) : py_scope.
Local Open Scope py_scope.

Definition get {S : Type} : M S S := fun s => (Return s, s).
Definition modify {S : Type} (f : S -> S) : M S unit := fun s => (Return tt, f s).

(** Lift a pure outcome (a call that touches no state). *)
Definition lift_outcome {S A : Type} (o : Outcome A) : M S A := fun s => (o, s).

(** [try: body finally: fin].  The [finally] block runs on every exit of
    the body; an exception raised by the [finally] block replaces the
    body's outcome. *)
Definition try_finally {S A : Type} (body : M S A) (fin : M S unit) : M S A :=
  fun s =>
    let '(r, s1) := body s in
    match fin s1 with
    | (Return _, s2) => (r, s2)
    | (Raise e, s2) => (Raise e, s2)
    end.

(** The [except] clauses of one [try] statement: the first clause whose
    class test accepts the exception handles it. *)
Fixpoint select_handler {S A : Type}
    (clauses : list ((Exn -> bool) * (Exn -> M S A))) (e : Exn) : M S A :=
  match clauses with
  | [] => raise e
  | (accepts, handler) :: rest =>
      if accepts e then handler e else select_handler rest e
  end.

Definition try_except {S A : Type} (body : M S A)
    (clauses : list ((Exn -> bool) * (Exn -> M S A))) : M S A :=
  fun s =>
    match body s with
    | (Return a, s1) => (Return a, s1)
    | (Raise e, s1) => select_handler clauses e s1
    end.

(** Worlds that have a standard output. *)
Class Stdout (S : Type) : Type := { write : string -> S -> S }.

(** [print(line)] *)
Definition print {S : Type} `{Stdout S} (line : string) : M S unit :=
  modify (write line).

(** The decimal text of an integer. *)
Definition decimal_text (n : Z) : string := NilZero.string_of_int (Z.to_int n).

(** The number of decimal digits of an integer, its sign apart. *)
Definition digits (n : Z) : nat := String.length (decimal_text (Z.abs n)).

(** [sys.int_info.default_max_str_digits] *)
Definition MAX_STR_DIGITS : nat := 4300.

Definition str_limit_error : Exn :=
  mkExn ValueError
    "Exceeds the limit (4300 digits) for integer string conversion; use sys.set_int_max_str_digits() to increase the limit".

(** [str(n)] for a Python [int], also as an f-string placeholder or a
    format field prints it: CPython refuses to convert an integer of more
    digits than the limit and raises [ValueError]. *)
Definition str_of_int (n : Z) : Outcome string :=
  if Nat.ltb MAX_STR_DIGITS (digits n) then Raise str_limit_error
  else Return (decimal_text n).

(** ASCII part of [str.lower]. *)
Definition lower_ascii (c : ascii) : ascii :=
  let n := nat_of_ascii c in
  if (Nat.leb 65 n && Nat.leb n 90)%bool then ascii_of_nat (n + 32) else c.

Fixpoint lower (s : string) : string :=
  match s with
  | EmptyString => EmptyString
  | String c rest => String (lower_ascii c) (lower rest)
  end.

(** Python floats are IEEE doubles; their arithmetic is not embedded.  The
    builtins that produce, inspect or print one are the members of this
    interface. *)
Class PyFloat : Type := {
  pyfloat : Type;
(** [float(n)] for an [int] n; raises [OverflowError] when n is too large *)
float_of_int : Z -> Outcome pyfloat;
(** the integer a float compares equal to, if any ([2.0 == 2]) *)
float_integral : pyfloat -> option Z;
(** [str(x)] for a float *)
float_str : pyfloat -> string
}.

(** A value read from an OPC UA node or a database cell: the numeric
    variants the plant publishes. *)
Inductive PyNum `{PyFloat} : Type :=
| PInt (n : Z)
| PFloat (x : pyfloat).

#[local] Set Warnings "-register-all".

(** JSON documents handed to [json.dumps]. *)
Inductive Json `{PyFloat} : Type :=
| JStr (s : string)
| JInt (n : Z)
| JFloat (x : pyfloat)
| JList (items : list Json)
| JDict (items : list (string * Json)).

(** [json.dumps(value, indent=2)] of the Python standard library. *)
Class JsonDumps `{PyFloat} : Type := {
  json_dumps : Json -> string
}.

Section Runtime.
Context `{PyFloat}.

(** builtin [float(v)] *)
Definition builtin_float (v : PyNum) : Outcome pyfloat :=
  match v with
  | PInt n => float_of_int n
  | PFloat x => Return x
  end.

(** [str(v)], as an f-string placeholder formats it *)
Definition builtin_str (v : PyNum) : Outcome string :=
  match v with
  | PInt n => str_of_int n
  | PFloat x => Return (float_str x)
  end.

(** The text of a number, where it has one. *)
Definition number_text (v : PyNum) : string :=
  match v with
  | PInt n => decimal_text n
  | PFloat x => float_str x
  end.

(** The integer a value compares (and hashes) equal to. *)
Definition as_integer (v : PyNum) : option Z :=
  match v with
  | PInt n => Some n
  | PFloat x => float_integral x
  end.
End Runtime.

(* ===================================================================== *)
(** ** batch_plant_functions.py                                          *)
(* ===================================================================== *)

(** Configuration *)
Definition SERVER_URL : string := "opc.tcp://desktop-fjjsr46:26543/BatchPlantServer".

Definition TANK1_LEVEL_NODE_ID : string := "ns=2;i=328".
Definition TANK2_LEVEL_NODE_ID : string := "ns=2;i=352".
Definition TANK3_LEVEL_NODE_ID : string := "ns=2;i=376".

Definition MIXER_STATE_NODE_ID : string := "ns=3;s=MixerState".
Definition REACTOR_STATE_NODE_ID : string := "ns=3;s=Reactor1State".
Definition FILLER_STATE_NODE_ID : string := "ns=3;s=Filler1State".

(** [class MachineState(IntEnum)] *)
Module MachineState.

Inductive t : Type :=
| DISABLED
| IDLE
| RUNNING
| STARVED
| BLOCKED
| PLANNED_DOWNTIME
| UNPLANNED_DOWNTIME
| OTHER.

Definition members : list t :=
  [DISABLED; IDLE; RUNNING; STARVED; BLOCKED;
   PLANNED_DOWNTIME; UNPLANNED_DOWNTIME; OTHER].

Definition value (m : t) : Z :=
  match m with
  | DISABLED => 0
  | IDLE => 1
  | RUNNING => 2
  | STARVED => 3
  | BLOCKED => 4
  | PLANNED_DOWNTIME => 5
  | UNPLANNED_DOWNTIME => 6
  | OTHER => 7
  end.

Definition name (m : t) : string :=
  match m with
  | DISABLED => "DISABLED"
  | IDLE => "IDLE"
  | RUNNING => "RUNNING"
  | STARVED => "STARVED"
  | BLOCKED => "BLOCKED"
  | PLANNED_DOWNTIME => "PLANNED_DOWNTIME"
  | UNPLANNED_DOWNTIME => "UNPLANNED_DOWNTIME"
  | OTHER => "OTHER"
  end.

(** Lookup of a member by value, as the enum's value map does. *)
Definition by_value (n : Z) : option t :=
  find (fun m => Z.eqb (value m) n) members.

Section Call.
Context `{PyFloat}.

(** The [ValueError] of a value that is no member; its message prints
    the value. *)
Definition not_a_member (v : PyNum) : Exn :=
  match builtin_str v with
  | Return text => mkExn ValueError (text ++ " is not a valid MachineState")
  | Raise e => e
  end.

(** [MachineState(v)]: the member whose value equals [v], or
    [ValueError]. *)
Definition call (v : PyNum) : Outcome t :=
  match as_integer v with
  | Some n =>
      match by_value n with
      | Some m => Return m
      | None => Raise (not_a_member v)
      end
  | None => Raise (not_a_member v)
  end.
End Call.

End MachineState.

(** *** The asyncua library, as a recording test double

    Every call made on the library is appended to a log before it is
    answered; the answer (success, or the exception raised) may depend on
    the whole history of calls. *)
Inductive Call : Type :=
| ClientNew (url : string)                 (* Client(url) *)
| ClientConnect (url : string)             (* client.connect() *)
| ClientDisconnect (url : string)          (* client.disconnect() *)
| GetNode (url node_id : string)           (* client.get_node(node_id) *)
| ReadValue (url node_id : string).        (* node.read_value() *)

Record Client : Type := mkClient { client_url : string }.
Record Node : Type := mkNode { node_client : Client; node_id : string }.

Section Asyncua.
Context `{PyFloat}.

Record Server : Type := mkServer {
  (** the exception a call raises after the given history, if it raises *)
  reply : list Call -> Call -> option Exn;
  (** the value a successful [read_value] of a node returns *)
  node_value : list Call -> string -> string -> PyNum;
  (** an integer the library delivers is an OPC UA integer, of 64 bits at
      most; all that is relied on is that it is within the digits Python
      prints *)
  node_value_digits :
    forall h url node n,
      node_value h url node = PInt n -> (digits n <= MAX_STR_DIGITS)%nat
}.

Record Net : Type := mkNet {
  server : Server;
  calls : list Call;
  stdout : list string
}.

Definition log_call (c : Call) (net : Net) : Net :=
  {| server := server net; calls := calls net ++ [c]; stdout := stdout net |}.

Definition perform (c : Call) : M Net unit :=
  fun net =>
    match reply (server net) (calls net) c with
    | Some e => (Raise e, log_call c net)
    | None => (Return tt, log_call c net)
    end.

#[export] Instance Net_Stdout : Stdout Net := {
  write line net :=
    {| server := server net; calls := calls net;
       stdout := stdout net ++ [line] |}
}.

Definition Client_new (url : string) : M Net Client :=
  perform (ClientNew url) ;; ret (mkClient url).

Definition Client_connect (c : Client) : M Net unit :=
  perform (ClientConnect (client_url c)).

Definition Client_disconnect (c : Client) : M Net unit :=
  perform (ClientDisconnect (client_url c)).

Definition Client_get_node (c : Client) (id : string) : M Net Node :=
  perform (GetNode (client_url c) id) ;; ret (mkNode c id).

Definition Node_read_value (n : Node) : M Net PyNum :=
  fun net =>
    let v := node_value (server net) (calls net)
               (client_url (node_client n)) (node_id n) in
    match perform (ReadValue (client_url (node_client n)) (node_id n)) net with
    | (Return _, net') => (Return v, net')
    | (Raise e, net') => (Raise e, net')
    end.

End Asyncua.

(** [class OPCUABatchPlantClient] *)
Module OPCUABatchPlantClient.
Section Methods.
Context `{PyFloat}.

Record t : Type := mk { server_url : string; client : option Client }.

(** A method runs on its object and on the outside world. *)
Definition State : Type := (t * Net)%type.

Definition self : M State t := fun s => (Return (fst s), s).

Definition set_client (c : option Client) : M State unit :=
  modify (fun s : State =>
    ({| server_url := server_url (fst s); client := c |}, snd s)).

Definition io {A : Type} (m : M Net A) : M State A :=
  fun s =>
    let '(r, net') := m (snd s) in (r, (fst s, net')).

(** [self.client.<method>]: attribute access on [None] raises. *)
Definition the_client (attr : string) : M State Client :=
  me <- self ;;
  match client me with
  | Some c => ret c
  | None =>
      raise (mkExn AttributeError
               ("'NoneType' object has no attribute '" ++ attr ++ "'"))
  end.

Definition __init__ (server_url : option string) : t :=
  {| server_url := SERVER_URL; client := None |}.

Definition connect : M State unit :=
  me <- self ;;
  c <- io (Client_new (server_url me)) ;;
  set_client (Some c) ;;
  io (Client_connect c).

Definition disconnect : M State unit :=
  me <- self ;;
  match client me with
  | Some c => io (Client_disconnect c)
  | None => ret tt
  end.

Definition get_material_availability : M State (list (string * pyfloat)) :=
  try_except
    (c1 <- the_client "get_node" ;;
     tank1_node <- io (Client_get_node c1 TANK1_LEVEL_NODE_ID) ;;
     c2 <- the_client "get_node" ;;
     tank2_node <- io (Client_get_node c2 TANK2_LEVEL_NODE_ID) ;;
     c3 <- the_client "get_node" ;;
     tank3_node <- io (Client_get_node c3 TANK3_LEVEL_NODE_ID) ;;
     tank1_level <- io (Node_read_value tank1_node) ;;
     tank2_level <- io (Node_read_value tank2_node) ;;
     tank3_level <- io (Node_read_value tank3_node) ;;
     f1 <- lift_outcome (builtin_float tank1_level) ;;
     f2 <- lift_outcome (builtin_float tank2_level) ;;
     f3 <- lift_outcome (builtin_float tank3_level) ;;
     ret [("tank1_material_level", f1);
          ("tank2_material_level", f2);
          ("tank3_material_level", f3)])
    [(isinstance_Exception,
      fun e =>
        io (print ("Error reading material levels: " ++ exn_str e)) ;;
        raise e)].

Definition _int_to_state_string {S : Type} (state_int : PyNum) : M S string :=
  try_except
    (state <- lift_outcome (MachineState.call state_int) ;;
     ret (lower (MachineState.name state)))
    [(isinstance_ValueError,
      fun _ =>
        text <- lift_outcome (builtin_str state_int) ;;
        ret ("unknown_state_" ++ text))].

Definition get_machine_states : M State (list (string * string)) :=
  try_except
    (c1 <- the_client "get_node" ;;
     mixer_node <- io (Client_get_node c1 MIXER_STATE_NODE_ID) ;;
     c2 <- the_client "get_node" ;;
     reactor_node <- io (Client_get_node c2 REACTOR_STATE_NODE_ID) ;;
     c3 <- the_client "get_node" ;;
     filler_node <- io (Client_get_node c3 FILLER_STATE_NODE_ID) ;;
     mixer_state_int <- io (Node_read_value mixer_node) ;;
     reactor_state_int <- io (Node_read_value reactor_node) ;;
     filler_state_int <- io (Node_read_value filler_node) ;;
     s1 <- _int_to_state_string mixer_state_int ;;
     s2 <- _int_to_state_string reactor_state_int ;;
     s3 <- _int_to_state_string filler_state_int ;;
     ret [("mixer_state", s1);
          ("reactor_state", s2);
          ("filler_state", s3)])
    [(isinstance_Exception,
      fun e =>
        io (print ("Error reading machine states: " ++ exn_str e)) ;;
        raise e)].

End Methods.
End OPCUABatchPlantClient.

Section Standalone.
Context `{JsonDumps}.

(** A local object lives for the duration of the call that created it. *)
Definition with_object {O W A : Type} (obj : O) (m : M (O * W) A) : M W A :=
  fun w => let '(r, s) := m (obj, w) in (r, snd s).

Definition float_dict (d : list (string * pyfloat)) : Json :=
  JDict (map (fun kv => (fst kv, JFloat (snd kv))) d).

Definition str_dict (d : list (string * string)) : Json :=
  JDict (map (fun kv => (fst kv, JStr (snd kv))) d).

(** Standalone functions for direct use *)
Definition get_material_availability : M Net string :=
  with_object (OPCUABatchPlantClient.__init__ None)
    (try_finally
       (OPCUABatchPlantClient.connect ;;
        result <- OPCUABatchPlantClient.get_material_availability ;;
        ret (json_dumps (float_dict result)))
       OPCUABatchPlantClient.disconnect).

Definition get_machine_states : M Net string :=
  with_object (OPCUABatchPlantClient.__init__ None)
    (try_finally
       (OPCUABatchPlantClient.connect ;;
        result <- OPCUABatchPlantClient.get_machine_states ;;
        ret (json_dumps (str_dict result)))
       OPCUABatchPlantClient.disconnect).

End Standalone.

(* ===================================================================== *)
(** ** batch_plant_storage.py                                            *)
(* ===================================================================== *)

(** *** The plant database

    The schema of [plantdb] is not part of the repository.  The three
    tables carry the columns the statement of [get_product_details]
    names, typed as the data model of the specification has them. *)

(** Modelled from the spec: table [products], of which the statement
    uses [id] and [name]. *)
Record Product : Type := mkProduct {
  p_id : Z;
  p_name : string
}.

Section Tables.
Context `{PyFloat}.

(** Modelled from the spec: table [raw_materials], of which the statement
    uses [id], [name] and [tank_number]; the tank number is an integer
    (the specification's [tank_id]). *)
Record RawMaterial : Type := mkRawMaterial {
  rm_id : Z;
  rm_name : string;
  rm_tank_number : Z
}.

(** Modelled from the spec: table [product_recipes], of which the
    statement uses [product_id], [material_id] and [quantity]; the
    quantity is a number (the specification's [quantity_per_batch]). *)
Record ProductRecipe : Type := mkProductRecipe {
  pr_product_id : Z;
  pr_material_id : Z;
  pr_quantity : PyNum
}.

Record Tables : Type := mkTables {
  products : list Product;
  raw_materials : list RawMaterial;
  product_recipes : list ProductRecipe
}.

(** A row of the result set, as [RealDictCursor] returns it. *)
Record Row : Type := mkRow {
  material_name : string;
  tank_number : Z;
  quantity : PyNum
}.

(** [ORDER BY rm.tank_number] *)
Fixpoint insert_by_tank_number (r : Row) (rows : list Row) : list Row :=
  match rows with
  | [] => [r]
  | r' :: rest =>
      if tank_number r <=? tank_number r' then r :: rows
      else r' :: insert_by_tank_number r rest
  end.

Fixpoint order_by_tank_number (rows : list Row) : list Row :=
  match rows with
  | [] => []
  | r :: rest => insert_by_tank_number r (order_by_tank_number rest)
  end.

(** The statement of [get_product_details], run on the tables with its
    one parameter bound:
<<
    SELECT rm.name AS material_name, rm.tank_number, pr.quantity
    FROM product_recipes pr
    JOIN raw_materials rm ON pr.material_id = rm.id
    JOIN products p ON pr.product_id = p.id
    WHERE p.name = %s
    ORDER BY rm.tank_number;
>> *)
Definition select_recipe (t : Tables) (name : string) : list Row :=
  order_by_tank_number
    (flat_map (fun pr =>
       flat_map (fun rm =>
         flat_map (fun p =>
           if ((pr_material_id pr =? rm_id rm)
               && (pr_product_id pr =? p_id p)
               && String.eqb (p_name p) name)%bool
           then [mkRow (rm_name rm) (rm_tank_number rm) (pr_quantity pr)]
           else [])
           (products t))
         (raw_materials t))
       (product_recipes t)).

End Tables.

(** *** The psycopg2 library, as a recording test double *)
Inductive DbCall : Type :=
| DbConnect (config : list (string * string))     (* psycopg2.connect( ** cfg) *)
| DbCursor                                        (* conn.cursor(...) *)
| DbExecute (text : string) (params : list string) (* cursor.execute(q, ps) *)
| DbFetchall                                      (* cursor.fetchall() *)
| DbCursorClose                                   (* cursor.close() *)
| DbConnClose.                                    (* conn.close() *)

Record Connection : Type := mkConnection { }.
Record Cursor : Type := mkCursor { }.

(** The query text of [get_product_details]. *)
Definition query : string :=
"
    -- Get recipe for product by name
    SELECT
        rm.name AS material_name,
        rm.tank_number,
        pr.quantity
    FROM product_recipes pr
    JOIN raw_materials rm ON pr.material_id = rm.id
    JOIN products p ON pr.product_id = p.id
    WHERE p.name = %s
    ORDER BY rm.tank_number;
    ".

Section Psycopg2.
Context `{PyFloat}.

Record Database : Type := mkDatabase {
  (** [os.environ], after [load_dotenv()] *)
  environ : string -> option string;
  (** the exception each library call raises, if it raises *)
  connect_raises : option Exn;
  cursor_raises : option Exn;
  execute_raises : option Exn;
  fetchall_raises : option Exn;
  tables : Tables
}.

Record Db : Type := mkDb {
  database : Database;
  db_calls : list DbCall;
  db_stdout : list string;
  (** the result set the open cursor holds *)
  result_set : option (list Row)
}.

#[export] Instance Db_Stdout : Stdout Db := {
  write line w :=
    {| database := database w; db_calls := db_calls w;
       db_stdout := db_stdout w ++ [line]; result_set := result_set w |}
}.

Definition log_db_call (c : DbCall) : M Db unit :=
  modify (fun w =>
    {| database := database w; db_calls := db_calls w ++ [c];
       db_stdout := db_stdout w; result_set := result_set w |}).

Definition set_result_set (rows : option (list Row)) : M Db unit :=
  modify (fun w =>
    {| database := database w; db_calls := db_calls w;
       db_stdout := db_stdout w; result_set := rows |}).

Definition raise_if {S : Type} (e : option Exn) : M S unit :=
  match e with
  | Some e => raise e
  | None => ret tt
  end.

(** The server runs the one statement it is modelled for; any other text
    is rejected.  A [%s] placeholder takes one parameter. *)
Definition run_statement (t : Tables) (text : string) (params : list string)
  : Outcome (list Row) :=
  if String.eqb text query then
    match params with
    | [name] => Return (select_recipe t name)
    | _ => Raise (mkExn Psycopg2Error "wrong number of parameters")
    end
  else Raise (mkExn Psycopg2Error "statement not understood").

Definition psycopg2_connect (config : list (string * string)) : M Db Connection :=
  log_db_call (DbConnect config) ;;
  w <- get ;;
  raise_if (connect_raises (database w)) ;;
  ret mkConnection.

Definition Connection_cursor (conn : Connection) : M Db Cursor :=
  log_db_call DbCursor ;;
  w <- get ;;
  raise_if (cursor_raises (database w)) ;;
  ret mkCursor.

Definition Cursor_execute (cur : Cursor) (text : string) (params : list string)
  : M Db unit :=
  log_db_call (DbExecute text params) ;;
  w <- get ;;
  raise_if (execute_raises (database w)) ;;
  rows <- lift_outcome (run_statement (tables (database w)) text params) ;;
  set_result_set (Some rows).

Definition Cursor_fetchall (cur : Cursor) : M Db (list Row) :=
  log_db_call DbFetchall ;;
  w <- get ;;
  raise_if (fetchall_raises (database w)) ;;
  match result_set w with
  | Some rows => set_result_set (Some []) ;; ret rows
  | None => raise (mkExn Psycopg2Error "no results to fetch")
  end.

Definition Cursor_close (cur : Cursor) : M Db unit :=
  log_db_call DbCursorClose.

Definition Connection_close (conn : Connection) : M Db unit :=
  log_db_call DbConnClose.

(** [os.getenv(key, default)] *)
Definition os_getenv (w : Db) (key default : string) : string :=
  match environ (database w) key with
  | Some v => v
  | None => default
  end.

(** Database connection parameters *)
Definition DB_CONFIG (w : Db) : list (string * string) :=
  [("dbname", "plantdb");
   ("user", os_getenv w "DB_USER" "your_username");
   ("password", os_getenv w "DB_PASSWORD" "your_password");
   ("host", os_getenv w "DB_HOST" "localhost");
   ("port", os_getenv w "DB_PORT" "5432")].

Definition get_db_connection : M Db Connection :=
  try_except
    (w <- get ;;
     conn <- psycopg2_connect (DB_CONFIG w) ;;
     ret conn)
    [(isinstance_psycopg2_Error,
      fun e => print ("Error connecting to database: " ++ exn_str e) ;; raise e)].

End Psycopg2.

Section Storage.
Context `{JsonDumps}.

(** The local variables [conn] and [cursor] of [get_product_details]. *)
Record Locals : Type := mkLocals {
  conn : option Connection;
  cursor : option Cursor
}.

Definition Frame : Type := (Locals * Db)%type.

Definition locals : M Frame Locals := fun s => (Return (fst s), s).

Definition set_conn (c : Connection) : M Frame unit :=
  modify (fun s : Frame =>
    ({| conn := Some c; cursor := cursor (fst s) |}, snd s)).

Definition set_cursor (c : Cursor) : M Frame unit :=
  modify (fun s : Frame =>
    ({| conn := conn (fst s); cursor := Some c |}, snd s)).

Definition db {A : Type} (m : M Db A) : M Frame A :=
  fun s => let '(r, w) := m (snd s) in (r, (fst s, w)).

Definition recipe_entry (material : string) (tank : Z) (qty : pyfloat) : Json :=
  JDict [("material_name", JStr material);
         ("tank_number", JInt tank);
         ("quantity", JFloat qty)].

(** [for row in results: recipe_details.append({...})] *)
Fixpoint append_rows {S : Type} (results : list Row) (recipe_details : list Json)
  : M S (list Json) :=
  match results with
  | [] => ret recipe_details
  | row :: rest =>
      q <- lift_outcome (builtin_float (quantity row)) ;;
      append_rows rest
        (recipe_details ++ [recipe_entry (material_name row) (tank_number row) q])
  end.

Definition get_product_details (product_name : string) : M Db (option string) :=
  with_object {| conn := None; cursor := None |}
    (try_finally
       (try_except
          (c <- db get_db_connection ;;
           set_conn c ;;
           cur <- db (Connection_cursor c) ;;
           set_cursor cur ;;
           db (Cursor_execute cur query [product_name]) ;;
           results <- db (Cursor_fetchall cur) ;;
           recipe_details <- append_rows results [] ;;
           let result := JDict [("product_name", JStr product_name);
                                ("recipe", JList recipe_details)] in
           ret (Some (json_dumps result)))
          [(isinstance_psycopg2_Error,
            fun e => db (print ("Database error: " ++ exn_str e)) ;; ret None);
           (isinstance_Exception,
            fun e => db (print ("Unexpected error: " ++ exn_str e)) ;; ret None)])
       (l <- locals ;;
        match cursor l with
        | Some cur => db (Cursor_close cur)
        | None => ret tt
        end ;;
        l <- locals ;;
        match conn l with
        | Some c => db (Connection_close c)
        | None => ret tt
        end)).

End Storage.

(* ===================================================================== *)
(** ** tools.py                                                          *)
(* ===================================================================== *)

(** [langchain.tools.Tool(name=..., func=..., description=...)] *)
Module Tool.
Record t (F : Type) : Type := mk {
  name : string;
  func : F;
  description : string
}.
Arguments mk {F} _ _ _.
Arguments name {F} _.
Arguments func {F} _.
Arguments description {F} _.
End Tool.

Section Tools.
Context `{JsonDumps}.

(** An argument the agent may pass to a tool. *)
Inductive PyArg : Type :=
| ArgNone
| ArgStr (s : string)
| ArgNum (v : PyNum)
| ArgList (items : list PyArg).

(** [asyncio.run(coro)]: runs the coroutine to completion. *)
Definition asyncio_run {S A : Type} (coro : M S A) : M S A := coro.

(** Create synchronous wrappers for async functions *)
Definition material_availability_sync
    (args : list PyArg) (kwargs : list (string * PyArg)) : M Net string :=
  asyncio_run get_material_availability.

Definition machine_states_sync
    (args : list PyArg) (kwargs : list (string * PyArg)) : M Net string :=
  asyncio_run get_machine_states.

Definition get_material_availability_tool :=
  Tool.mk "get_material_availability" material_availability_sync
    "Return the current level (in litres) of raw-material tanks 1-3 by reading their OPC-UA nodes on the batch-plant server.".

Definition get_machine_states_tool :=
  Tool.mk "get_machine_states" machine_states_sync
    "Return the current states of machines in the batch plant by reading their OPC-UA nodes.".

Definition get_product_details_tool :=
  Tool.mk "get_product_details" get_product_details
    "Get the recipe details for a specific product including material requirements. Input should be the product name as a string.".

End Tools.

(* ===================================================================== *)
(** ** Observations on the call logs                                     *)
(* ===================================================================== *)

Definition is_open (c : Call) : bool :=
  match c with ClientConnect _ => true | _ => false end.

Definition is_close (c : Call) : bool :=
  match c with ClientDisconnect _ => true | _ => false end.

(** Number of session opens, and of session closes, in a log. *)
Definition opens (log : list Call) : nat := length (filter is_open log).
Definition closes (log : list Call) : nat := length (filter is_close log).

(** The calls one invocation adds: nothing but the failed creation of the
    client, or one open and, last, one close. *)
Definition one_session (new : list Call) : Prop :=
  opens new = closes new
  /\ (new = [ClientNew SERVER_URL]
      \/ (opens new = 1%nat
          /\ last new (ClientNew SERVER_URL) = ClientDisconnect SERVER_URL)).

(** The endpoint a call is addressed to, and the node it names. *)
Definition call_url (c : Call) : string :=
  match c with
  | ClientNew url | ClientConnect url | ClientDisconnect url => url
  | GetNode url _ | ReadValue url _ => url
  end.

Definition call_node (c : Call) : option string :=
  match c with
  | GetNode _ id | ReadValue _ id => Some id
  | _ => None
  end.

(** The call names no node, or one of [ids]. *)
Definition node_among (ids : list string) (c : Call) : Prop :=
  match call_node c with
  | Some id => In id ids
  | None => True
  end.

(** The statements a database log shows as executed. *)
Fixpoint executed_texts (log : list DbCall) : list string :=
  match log with
  | [] => []
  | DbExecute text _ :: rest => text :: executed_texts rest
  | _ :: rest => executed_texts rest
  end.

(** A database call is no statement, or the statement [text] with the
    parameters [params] bound. *)
Definition statement_is (text : string) (params : list string) (c : DbCall) : Prop :=
  match c with
  | DbExecute text' params' => text' = text /\ params' = params
  | _ => True
  end.

Section Recipes.
Context `{PyFloat}.

(** The first library call of a lookup that raises, if one does. *)
Definition first_failure (d : Database) : option Exn :=
  match connect_raises d with
  | Some e => Some e
  | None =>
      match cursor_raises d with
      | Some e => Some e
      | None =>
          match execute_raises d with
          | Some e => Some e
          | None => fetchall_raises d
          end
      end
  end.

(** Row [a] may stand before row [b] in a result ordered by tank number. *)
Definition by_tank (a b : Row) : Prop := tank_number a <= tank_number b.

(** A line of a returned recipe. *)
Record RecipeLine : Type := mkRecipeLine {
  line_material : string;
  line_tank : Z;
  line_quantity : pyfloat
}.

Definition line_json (l : RecipeLine) : Json :=
  recipe_entry (line_material l) (line_tank l) (line_quantity l).

(** The line a result row is converted to. *)
Definition row_converts (r : Row) (l : RecipeLine) : Prop :=
  material_name r = line_material l
  /\ tank_number r = line_tank l
  /\ builtin_float (quantity r) = Return (line_quantity l).

(** The document [get_product_details] serializes. *)
Definition recipe_document (product_name : string) (lines : list RecipeLine) : Json :=
  JDict [("product_name", JStr product_name);
         ("recipe", JList (map line_json lines))].

End Recipes.

(* ===================================================================== *)
(** ** Test doubles                                                      *)
(* ===================================================================== *)

(** A runtime whose floats are whole numbers: enough to run the code on
    whole-litre readings. *)
#[export] Instance WholeFloat : PyFloat := {
  pyfloat := Z;
  float_of_int n := Return n;
  float_integral x := Some x;
  float_str x := decimal_text x ++ ".0"
}.

(** A serializer that keeps only the leaves of a document, in order. *)
Fixpoint leaves (j : Json) : string :=
  match j with
  | JStr s => s ++ ";"
  | JInt n => decimal_text n ++ ";"
  | JFloat x => float_str x ++ ";"
  | JList items =>
      (fix go (l : list Json) : string :=
         match l with
         | [] => ""
         | x :: rest => leaves x ++ go rest
         end) items
  | JDict items =>
      (fix go (l : list (string * Json)) : string :=
         match l with
         | [] => ""
         | (k, x) :: rest => k ++ "=" ++ leaves x ++ go rest
         end) items
  end.

#[export] Instance LeafDumps : JsonDumps := { json_dumps := leaves }.

(** A plant that answers every call; tanks hold 40, 20 and 0 litres, the
    mixer runs (2), the reactor is in unplanned downtime (6), the filler
    reports an unlisted code (9). *)
Definition plant_values (node : string) : PyNum :=
  if String.eqb node TANK1_LEVEL_NODE_ID then PInt 40
  else if String.eqb node TANK2_LEVEL_NODE_ID then PInt 20
  else if String.eqb node MIXER_STATE_NODE_ID then PInt 2
  else if String.eqb node REACTOR_STATE_NODE_ID then PInt 6
  else if String.eqb node FILLER_STATE_NODE_ID then PInt 9
  else PInt 0.

(** The readings of the test plants are within the digits Python prints. *)
Definition plant_values_digits (node : string) (n : Z) :
  plant_values node = PInt n -> (digits n <= MAX_STR_DIGITS)%nat.
Proof.
  unfold plant_values.
  repeat match goal with
         | |- context [if ?b then _ else _] => destruct b
         end;
    intros Hv; injection Hv as <-; apply Nat.leb_le; vm_compute; reflexivity.
Qed.

Definition healthy_plant : Server :=
  {| reply := fun _ _ => None;
     node_value := fun _ _ node => plant_values node;
     node_value_digits := fun _ _ node n => plant_values_digits node n |}.

(** A plant whose endpoint refuses the connection. *)
Definition unreachable_plant : Server :=
  {| reply := fun _ c =>
       match c with
       | ClientConnect _ => Some (mkExn OtherException "connection refused")
       | _ => None
       end;
     node_value := fun _ _ node => plant_values node;
     node_value_digits := fun _ _ node n => plant_values_digits node n |}.

(** A plant on which the second tank cannot be read. *)
Definition faulty_plant : Server :=
  {| reply := fun _ c =>
       match c with
       | ReadValue _ node =>
           if String.eqb node TANK2_LEVEL_NODE_ID
           then Some (mkExn OtherException "BadNodeIdUnknown")
           else None
       | _ => None
       end;
     node_value := fun _ _ node => plant_values node;
     node_value_digits := fun _ _ node n => plant_values_digits node n |}.

(** A plant whose library refuses to close a session that is not open. *)
Definition strict_plant : Server :=
  {| reply := fun h c =>
       match c with
       | ClientDisconnect _ =>
           if Nat.leb (opens h) (closes h)
           then Some (mkExn OtherException "not connected")
           else None
       | _ => None
       end;
     node_value := fun _ _ node => plant_values node;
     node_value_digits := fun _ _ node n => plant_values_digits node n |}.

Definition fresh_net (srv : Server) : Net :=
  {| server := srv; calls := []; stdout := [] |}.

(** A small plant database: product A takes acid from tank 2 and water
    from tank 1. *)
Definition plant_tables : Tables :=
  {| products := [mkProduct 1 "Product A"; mkProduct 2 "Product B"];
     raw_materials := [mkRawMaterial 10 "Acid" 2; mkRawMaterial 11 "Water" 1;
                       mkRawMaterial 12 "Resin" 3];
     product_recipes := [mkProductRecipe 1 10 (PInt 5);
                         mkProductRecipe 1 11 (PInt 10);
                         mkProductRecipe 2 12 (PInt 7)] |}.

Definition plant_database : Database :=
  {| environ := fun _ => None;
     connect_raises := None;
     cursor_raises := None;
     execute_raises := None;
     fetchall_raises := None;
     tables := plant_tables |}.

Definition unreachable_database : Database :=
  {| environ := fun _ => None;
     connect_raises := Some (mkExn Psycopg2Error "could not connect to server");
     cursor_raises := None;
     execute_raises := None;
     fetchall_raises := None;
     tables := plant_tables |}.

Definition fresh_db (d : Database) : Db :=
  {| database := d; db_calls := []; db_stdout := []; result_set := None |}.

(* ===================================================================== *)
(** ** The rest of the sources                                           *)
(* ===================================================================== *)

(** *** batch_plant_functions.py: the example program *)

Section Example.
Context `{JsonDumps}.

(** [async def main()] *)
Definition main : M Net unit :=
  print "Material Availability:" ;;
  levels <- get_material_availability ;;
  print levels ;;
  print "" ;;
  print "Machine States:" ;;
  states <- get_machine_states ;;
  print states.

End Example.

(** *** batch_plant_storage.py: the recipe printer *)

Definition newline : string := String (ascii_of_nat 10) "".

(** [s * n] *)
Fixpoint str_times (s : string) (n : nat) : string :=
  match n with
  | O => ""
  | S k => s ++ str_times s k
  end.

(** A byte that continues a character of a text held in UTF-8. *)
Definition continues (c : ascii) : bool :=
  (Nat.leb 128 (nat_of_ascii c) && Nat.leb (nat_of_ascii c) 191)%bool.

(** [len(s)]: the number of code points of a text, held here in UTF-8:
    the bytes that start a character. *)
Fixpoint py_len (s : string) : nat :=
  match s with
  | EmptyString => O
  | String c rest => if continues c then py_len rest else S (py_len rest)
  end.

(** [format(s, "<width")]: the text, then spaces up to the field width,
    which counts code points. *)
Definition ljust (width : nat) (s : string) : string :=
  s ++ str_times " " (width - py_len s).

Section Printer.
Context `{PyFloat}.

Definition recipe_header : string :=
  ljust 30 "Material Name" ++ " " ++ ljust 10 "Tank #" ++ " " ++ ljust 10 "Quantity".

(** The line printed for one entry of the recipe; formatting the tank
    number converts an integer to text. *)
Definition recipe_row (detail : RecipeLine) : Outcome string :=
  match str_of_int (line_tank detail) with
  | Return tank =>
      Return (ljust 30 (line_material detail) ++ " "
              ++ ljust 10 tank ++ " "
              ++ ljust 10 (float_str (line_quantity detail)))
  | Raise e => Raise e
  end.

(** [for detail in recipe_details: print(...)] *)
Fixpoint print_rows {S : Type} `{Stdout S} (recipe_details : list RecipeLine)
  : M S unit :=
  match recipe_details with
  | [] => ret tt
  | detail :: rest =>
      row <- lift_outcome (recipe_row detail) ;;
      print row ;;
      print_rows rest
  end.

Definition print_recipe_details {S : Type} `{Stdout S}
    (product_name : string) (recipe_details : list RecipeLine) : M S unit :=
  match recipe_details with
  | [] => print ("No recipe found for product: " ++ product_name)
  | _ :: _ =>
      print (newline ++ "Recipe for: " ++ product_name) ;;
      print (str_times "-" 60) ;;
      print recipe_header ;;
      print (str_times "-" 60) ;;
      print_rows recipe_details
  end.

End Printer.

(** *** main.py: reading the agent's answer *)

#[local] Set Warnings "-register-all".

(** The Python values an agent response or a parsed JSON text is made
    of.  The keys of a dictionary are strings and are distinct. *)
Inductive PyObj `{PyFloat} : Type :=
| ONone
| OBool (b : bool)
| OInt (n : Z)
| OFloat (x : pyfloat)
| OStr (s : string)
| OList (items : list PyObj)
| ODict (items : list (string * PyObj)).

(** [json.loads(text)] of the Python standard library. *)
Class JsonLoads `{PyFloat} : Type := {
  json_loads : string -> Outcome PyObj
}.

(** The rest of a text from its first opening brace on. *)
Fixpoint from_first_open (text : string) : option string :=
  match text with
  | EmptyString => None
  | String c rest =>
      if Ascii.eqb c "{" then Some text else from_first_open rest
  end.

(** The longest prefix of a text that ends with a closing brace. *)
Fixpoint upto_last_close (text : string) : option string :=
  match text with
  | EmptyString => None
  | String c rest =>
      match upto_last_close rest with
      | Some prefix => Some (String c prefix)
      | None => if Ascii.eqb c "}" then Some (String c EmptyString) else None
      end
  end.

(** [re.search(r'\{.*\}', text, re.DOTALL)], then [.group()]: the
    leftmost match, which is the longest since [.*] is greedy and the dot
    matches every character. *)
Definition search_braces (text : string) : option string :=
  match from_first_open text with
  | Some (String open rest) =>
      match upto_last_close rest with
      | Some inner => Some (String open inner)
      | None => None
      end
  | _ => None
  end.

Section Answer.
Context `{PyFloat} `{!JsonLoads}.

(** [key in d], [d[key]] *)
Fixpoint dict_get (items : list (string * PyObj)) (key : string) : option PyObj :=
  match items with
  | [] => None
  | (k, v) :: rest => if String.eqb k key then Some v else dict_get rest key
  end.

(** The [try] block run on the text of one item of a list output: the
    value to return, if the text holds a brace span that parses. *)
Definition item_try (text : PyObj) : Outcome (option PyObj) :=
  match text with
  | OStr s =>
      match search_braces s with
      | Some span =>
          match json_loads span with
          | Return v => Return (Some v)
          | Raise e => Raise e
          end
      | None => Return None
      end
  | _ => Raise (mkExn TypeError "expected string or bytes-like object")
  end.

(** [for item in output]: the value the loop returns, if it returns.  The
    bare [except: pass] drops whatever the [try] block raises. *)
Fixpoint scan_items (output : list PyObj) : option PyObj :=
  match output with
  | [] => None
  | item :: rest =>
      match item with
      | ODict fields =>
          match dict_get fields "text" with
          | Some text =>
              match item_try text with
              | Return (Some v) => Some v
              | Return None => scan_items rest
              | Raise _ => scan_items rest
              end
          | None => scan_items rest
          end
      | _ => scan_items rest
      end
  end.

(** The string branch: how the function leaves it, if it does.  The
    second [json.loads] sits in the [except] block, unguarded. *)
Definition scan_string (output : string) : option (Outcome PyObj) :=
  match json_loads output with
  | Return v => Some (Return v)
  | Raise _ =>
      match search_braces output with
      | Some span => Some (json_loads span)
      | None => None
      end
  end.

Definition could_not_extract : Exn :=
  mkExn ValueError "Could not extract JSON from response".

Definition extract_json_from_response (response : PyObj) : Outcome PyObj :=
  let already_parsed :=
    match response with
    | ODict fields =>
        match dict_get fields "decision" with
        | Some _ => Return response
        | None => Raise could_not_extract
        end
    | _ => Raise could_not_extract
    end in
  match response with
  | ODict fields =>
      match dict_get fields "output" with
      | Some (OList items) =>
          match scan_items items with
          | Some v => Return v
          | None => already_parsed
          end
      | Some (OStr text) =>
          match scan_string text with
          | Some outcome => outcome
          | None => already_parsed
          end
      | _ => already_parsed
      end
  | _ => already_parsed
  end.

End Answer.

(** [status_icon = "🟢" if state not in ["fault", "error"] else "🔴"] *)
Definition status_icon (state : string) : string :=
  if existsb (String.eqb state) ["fault"; "error"] then "🔴" else "🟢".

(** *** Observations and test doubles for these functions *)

(** The calls of a query that meets no failure, up to the close. *)
Definition material_script : list Call :=
  [ClientNew SERVER_URL; ClientConnect SERVER_URL;
   GetNode SERVER_URL TANK1_LEVEL_NODE_ID;
   GetNode SERVER_URL TANK2_LEVEL_NODE_ID;
   GetNode SERVER_URL TANK3_LEVEL_NODE_ID;
   ReadValue SERVER_URL TANK1_LEVEL_NODE_ID;
   ReadValue SERVER_URL TANK2_LEVEL_NODE_ID;
   ReadValue SERVER_URL TANK3_LEVEL_NODE_ID].

Definition states_script : list Call :=
  [ClientNew SERVER_URL; ClientConnect SERVER_URL;
   GetNode SERVER_URL MIXER_STATE_NODE_ID;
   GetNode SERVER_URL REACTOR_STATE_NODE_ID;
   GetNode SERVER_URL FILLER_STATE_NODE_ID;
   ReadValue SERVER_URL MIXER_STATE_NODE_ID;
   ReadValue SERVER_URL REACTOR_STATE_NODE_ID;
   ReadValue SERVER_URL FILLER_STATE_NODE_ID].

(** The calls a run adds when it stops after [k] calls of [script]: the
    lone failed creation of the client, or the [k] calls and the close. *)
Definition stopped_after (script : list Call) (k : nat) : list Call :=
  match k with
  | O | S O => firstn 1 script
  | _ => (firstn k script ++ [ClientDisconnect SERVER_URL])%list
  end.

Section Answered.
Context `{PyFloat} `{!JsonLoads}.

(** An item of a list output that the loop passes over: it is no
    dictionary, or has no [text] key, or its text is no string, or holds
    no brace span, or holds one that does not parse. *)
Definition passed_over (item : PyObj) : Prop :=
  match item with
  | ODict fields =>
      match dict_get fields "text" with
      | Some (OStr text) =>
          match search_braces text with
          | Some span => exists e, json_loads span = Raise e
          | None => True
          end
      | _ => True
      end
  | _ => True
  end.

(** An item that holds the answer [v]: a dictionary whose [text] is a
    string with a brace span that parses to [v]. *)
Definition holds_answer (item : PyObj) (v : PyObj) : Prop :=
  match item with
  | ODict fields =>
      match dict_get fields "text" with
      | Some (OStr text) =>
          match search_braces text with
          | Some span => json_loads span = Return v
          | None => False
          end
      | _ => False
      end
  | _ => False
  end.

End Answered.

Section Printed.
Context `{PyFloat}.

(** The line of an entry, as printed when its tank number converts to
    text. *)
Definition row_text (detail : RecipeLine) : string :=
  ljust 30 (line_material detail) ++ " "
  ++ ljust 10 (decimal_text (line_tank detail)) ++ " "
  ++ ljust 10 (float_str (line_quantity detail)).

(** The tank number of an entry is within the interpreter's limit on the
    conversion of integers to text; so is every integer a database column
    holds. *)
Definition printable (detail : RecipeLine) : Prop :=
  (digits (line_tank detail) <= MAX_STR_DIGITS)%nat.

(** What the printer writes for a recipe with printable entries. *)
Definition printed (product_name : string) (lines : list RecipeLine)
  : list string :=
  match lines with
  | [] => [("No recipe found for product: " ++ product_name)%string]
  | _ :: _ =>
      [(newline ++ "Recipe for: " ++ product_name)%string;
       str_times "-" 60; recipe_header; str_times "-" 60]
      ++ map row_text lines
  end%list.

End Printed.

Section Decoded.
Context `{PyFloat}.

(** The text the decoder gives for a value. *)
Definition state_string (v : PyNum) : string :=
  match MachineState.call v with
  | Return m => lower (MachineState.name m)
  | Raise _ => "unknown_state_" ++ number_text v
  end.

(** A character occurs in a text. *)
Fixpoint occurs (c : ascii) (text : string) : Prop :=
  match text with
  | EmptyString => False
  | String c' rest => c' = c \/ occurs c rest
  end.

End Decoded.

(** A plant whose library fails on every close. *)
Definition unclosable_plant : Server :=
  {| reply := fun _ c =>
       match c with
       | ClientDisconnect _ => Some (mkExn OtherException "socket lost")
       | _ => None
       end;
     node_value := fun _ _ node => plant_values node;
     node_value_digits := fun _ _ node n => plant_values_digits node n |}.

(** A runtime whose floats are whole numbers below 2^1024; larger
    integers do not convert. *)
Definition BoundedFloat : PyFloat := {|
  pyfloat := Z;
  float_of_int n :=
    if 2 ^ 1024 <=? Z.abs n
    then Raise (mkExn OverflowError "int too large to convert to float")
    else Return n;
  float_integral x := Some x;
  float_str x := decimal_text x ++ ".0"
|}.

Definition BoundedDumps : @JsonDumps BoundedFloat :=
  @Build_JsonDumps BoundedFloat (fun _ => "{}").

(** A plant whose first tank reports a level too large for a float. *)
Definition overfull_values (node : string) : @PyNum BoundedFloat :=
  if String.eqb node TANK1_LEVEL_NODE_ID then @PInt BoundedFloat (2 ^ 1024)
  else @PInt BoundedFloat 20.

Definition overfull_values_digits (node : string) (n : Z) :
  overfull_values node = @PInt BoundedFloat n -> (digits n <= MAX_STR_DIGITS)%nat.
Proof.
  unfold overfull_values. destruct (String.eqb node TANK1_LEVEL_NODE_ID);
    intros Hv; injection Hv as <-; apply Nat.leb_le; vm_compute; reflexivity.
Qed.

Definition overfull_plant : @Server BoundedFloat :=
  {| reply := fun _ _ => None;
     node_value := fun _ _ node => overfull_values node;
     node_value_digits := fun _ _ node n => overfull_values_digits node n |}.

(** A database in which one recipe quantity is too large for a float. *)
Definition oversized_database : @Database BoundedFloat :=
  {| environ := fun _ => None;
     connect_raises := None;
     cursor_raises := None;
     execute_raises := None;
     fetchall_raises := None;
     tables :=
       {| products := [mkProduct 1 "Product A"];
          raw_materials := [mkRawMaterial 10 "Acid" 2; mkRawMaterial 11 "Water" 1];
          product_recipes :=
            [mkProductRecipe 1 10 (@PInt BoundedFloat (2 ^ 1024));
             mkProductRecipe 1 11 (@PInt BoundedFloat 10)] |} |}.

(** A database on which the statement is interrupted from the keyboard. *)
Definition interrupted_database : Database :=
  {| environ := fun _ => None;
     connect_raises := None;
     cursor_raises := None;
     execute_raises := Some (mkExn BaseExceptionOnly "KeyboardInterrupt");
     fetchall_raises := None;
     tables := plant_tables |}.

(** A parser that understands two texts. *)
#[export] Instance TwoTexts : JsonLoads := {
  json_loads text :=
    if String.eqb text "{}" then Return (ODict [])
    else if String.eqb text "[]" then Return (OList [])
    else Raise (mkExn ValueError "Expecting value")
}.

(** A double quote, and the text of a JSON object with one key. *)
Definition quote : string := String (ascii_of_nat 34) "".

Definition go_text : string := "{" ++ quote ++ "decision" ++ quote ++ ": true}".

(** A parser that understands the empty object and [go_text]. *)
Definition AnswerTexts : @JsonLoads WholeFloat :=
  @Build_JsonLoads WholeFloat
    (fun text =>
       if String.eqb text "{}" then Return (@ODict WholeFloat [])
       else if String.eqb text go_text
            then Return (@ODict WholeFloat [("decision", @OBool WholeFloat true)])
            else Raise (mkExn ValueError "Expecting value")).

(* ===================================================================== *)
(** ** Properties of the machine-state decoder                           *)
(* ===================================================================== *)

Section Decoder.
Context `{PyFloat}.

Lemma by_value_in_range (m : MachineState.t) :
  MachineState.by_value (MachineState.value m) = Some m.
Proof. destruct m; reflexivity. Qed.

Lemma by_value_out_of_range (n : Z) :
  n < 0 \/ 7 < n -> MachineState.by_value n = None.
Proof.
  intros Hn. unfold MachineState.by_value, MachineState.members.
  cbn [find MachineState.value].
  repeat match goal with
         | |- context [ (?k =? n) ] => destruct (Z.eqb_spec k n); [lia|]
         end.
  reflexivity.
Qed.

Lemma value_range (m : MachineState.t) : 0 <= MachineState.value m <= 7.
Proof. destruct m; simpl; lia. Qed.

Lemma range_has_member (n : Z) :
  0 <= n <= 7 -> exists m, MachineState.value m = n.
Proof.
  intros Hn.
  assert (Hc : n = 0 \/ n = 1 \/ n = 2 \/ n = 3 \/ n = 4 \/ n = 5 \/ n = 6 \/ n = 7)
    by lia.
  destruct Hc as [-> | [-> | [-> | [-> | [-> | [-> | [-> | ->]]]]]]].
  - exists MachineState.DISABLED; reflexivity.
  - exists MachineState.IDLE; reflexivity.
  - exists MachineState.RUNNING; reflexivity.
  - exists MachineState.STARVED; reflexivity.
  - exists MachineState.BLOCKED; reflexivity.
  - exists MachineState.PLANNED_DOWNTIME; reflexivity.
  - exists MachineState.UNPLANNED_DOWNTIME; reflexivity.
  - exists MachineState.OTHER; reflexivity.
Qed.

Lemma decode_member {S : Type} (s : S) (m : MachineState.t) :
  OPCUABatchPlantClient._int_to_state_string (PInt (MachineState.value m)) s
  = (Return (lower (MachineState.name m)), s).
Proof.
  unfold OPCUABatchPlantClient._int_to_state_string, try_except, bind,
    lift_outcome, MachineState.call.
  cbn [as_integer]. rewrite by_value_in_range. reflexivity.
Qed.

Lemma str_of_int_within (n : Z) :
  (digits n <= MAX_STR_DIGITS)%nat -> str_of_int n = Return (decimal_text n).
Proof.
  intros Hd. unfold str_of_int.
  destruct (Nat.ltb_spec MAX_STR_DIGITS (digits n)) as [Hlt|Hle];
    [apply Nat.lt_nge in Hlt; contradiction | reflexivity].
Qed.

Lemma str_of_int_beyond (n : Z) :
  (MAX_STR_DIGITS < digits n)%nat -> str_of_int n = Raise str_limit_error.
Proof.
  intros Hd. unfold str_of_int.
  destruct (Nat.ltb_spec MAX_STR_DIGITS (digits n)) as [Hlt|Hle];
    [reflexivity | apply Nat.lt_nge in Hd; contradiction].
Qed.

Lemma member_digits (m : MachineState.t) : digits (MachineState.value m) = 1%nat.
Proof. destruct m; reflexivity. Qed.

Lemma decode_unknown {S : Type} (s : S) (n : Z) :
  n < 0 \/ 7 < n ->
  (digits n <= MAX_STR_DIGITS)%nat ->
  OPCUABatchPlantClient._int_to_state_string (PInt n) s
  = (Return ("unknown_state_" ++ decimal_text n), s).
Proof.
  intros Hn Hd.
  unfold OPCUABatchPlantClient._int_to_state_string, try_except, bind,
    lift_outcome, MachineState.call, MachineState.not_a_member.
  cbn [as_integer builtin_str]. rewrite (by_value_out_of_range n Hn).
  rewrite (str_of_int_within n Hd). reflexivity.
Qed.

Lemma decode_beyond {S : Type} (s : S) (n : Z) :
  (MAX_STR_DIGITS < digits n)%nat ->
  OPCUABatchPlantClient._int_to_state_string (PInt n) s
  = (Raise str_limit_error, s).
Proof.
  intros Hd.
  assert (Hn : n < 0 \/ 7 < n).
  { destruct (Z_le_gt_dec 0 n) as [Hlo|Hlo]; [|left; lia].
    destruct (Z_le_gt_dec n 7) as [Hhi|Hhi]; [|right; lia].
    destruct (range_has_member n (conj Hlo Hhi)) as [m <-].
    rewrite member_digits in Hd. apply Nat.ltb_lt in Hd. discriminate Hd. }
  unfold OPCUABatchPlantClient._int_to_state_string, try_except, bind,
    lift_outcome, MachineState.call, MachineState.not_a_member.
  cbn [as_integer builtin_str]. rewrite (by_value_out_of_range n Hn).
  rewrite (str_of_int_beyond n Hd). reflexivity.
Qed.

(** The eight names, as the decoder prints them. *)
Lemma decode_table {S : Type} (s : S) :
  map (fun n => fst (OPCUABatchPlantClient._int_to_state_string (PInt n) s))
      [0; 1; 2; 3; 4; 5; 6; 7]
  = map Return
      ["disabled"; "idle"; "running"; "starved"; "blocked";
       "planned_downtime"; "unplanned_downtime"; "other"].
Proof. reflexivity. Qed.

(** C1, as the code has it.  For every integer code in 0..7 the decoder
    returns the (lower-cased) name of the enumeration member with that
    value.  For every other integer, negative ones included, of at most
    4300 decimal digits (the limit at which Python stops converting an
    integer to text) it returns the unknown variant that carries the
    code, [unknown_state_<code>].  Within that limit it always returns:
    it does not raise and leaves the state alone.  Beyond the limit the
    f-string of the [except] handler raises [ValueError]. *)
Theorem int_to_state_string_decodes {S : Type} (s : S) (n : Z) :
  (0 <= n <= 7 ->
     exists m, MachineState.value m = n /\
       OPCUABatchPlantClient._int_to_state_string (PInt n) s
       = (Return (lower (MachineState.name m)), s))
  /\ (n < 0 \/ 7 < n ->
      (digits n <= MAX_STR_DIGITS)%nat ->
      OPCUABatchPlantClient._int_to_state_string (PInt n) s
      = (Return ("unknown_state_" ++ decimal_text n), s))
  /\ ((digits n <= MAX_STR_DIGITS)%nat ->
      exists r,
        OPCUABatchPlantClient._int_to_state_string (PInt n) s = (Return r, s))
  /\ ((MAX_STR_DIGITS < digits n)%nat ->
      OPCUABatchPlantClient._int_to_state_string (PInt n) s
      = (Raise str_limit_error, s)).
Proof.
  split; [|split; [|split]].
  - intros Hn. destruct (range_has_member n Hn) as [m Hm].
    exists m. split; [exact Hm|]. rewrite <- Hm. apply decode_member.
  - apply decode_unknown.
  - intros Hd.
    destruct (Z_le_gt_dec 0 n) as [Hlo|Hlo]; [destruct (Z_le_gt_dec n 7) as [Hhi|Hhi]|].
    + destruct (range_has_member n (conj Hlo Hhi)) as [m Hm].
      eexists. rewrite <- Hm. apply decode_member.
    + eexists. apply decode_unknown; [lia | exact Hd].
    + eexists. apply decode_unknown; [lia | exact Hd].
  - apply decode_beyond.
Qed.

End Decoder.

(** The decimal text is injective on integers, so the unknown variant
    determines the code it carries. *)
Lemma decimal_text_inj (a b : Z) : decimal_text a = decimal_text b -> a = b.
Proof.
  unfold decimal_text. intros Hs.
  assert (Hnn : forall n, Z.to_int n <> Decimal.Pos Decimal.Nil
                          /\ Z.to_int n <> Decimal.Neg Decimal.Nil).
  { intros [|p|p]; simpl; split; try discriminate;
      intros Hp; injection Hp as Hp; exact (Unsigned.to_uint_nonnil p Hp). }
  assert (Hi : Some (Z.to_int a) = Some (Z.to_int b)).
  { rewrite <- (NilZero.isi (Z.to_int a)) by apply Hnn.
    rewrite <- (NilZero.isi (Z.to_int b)) by apply Hnn.
    now rewrite Hs. }
  injection Hi as Hi.
  rewrite <- (DecimalZ.of_to a), <- (DecimalZ.of_to b). now rewrite Hi.
Qed.

(** No unknown variant reads as one of the eight names. *)
Lemma unknown_state_is_no_name (m : MachineState.t) (text : string) :
  lower (MachineState.name m) <> "unknown_state_" ++ text.
Proof. destruct m; simpl; discriminate. Qed.

Lemma unknown_state_carries_code (a b : Z) :
  "unknown_state_" ++ decimal_text a = "unknown_state_" ++ decimal_text b -> a = b.
Proof. intros Hs. apply decimal_text_inj. simpl in Hs. now inversion Hs. Qed.

(* ===================================================================== *)
(** ** Properties of the telemetry session                               *)
(* ===================================================================== *)

Section Sessions.
Context `{JsonDumps}.

Ltac run_all :=
  cbv [get_material_availability get_machine_states with_object try_finally
       material_availability_sync machine_states_sync asyncio_run
       OPCUABatchPlantClient.connect OPCUABatchPlantClient.disconnect
       OPCUABatchPlantClient.get_material_availability
       OPCUABatchPlantClient.get_machine_states
       OPCUABatchPlantClient._int_to_state_string
       OPCUABatchPlantClient.the_client OPCUABatchPlantClient.self
       OPCUABatchPlantClient.set_client OPCUABatchPlantClient.io
       OPCUABatchPlantClient.__init__ OPCUABatchPlantClient.client
       OPCUABatchPlantClient.server_url
       Client_new Client_connect Client_disconnect Client_get_node
       Node_read_value perform try_except select_handler
       bind ret raise modify get lift_outcome print write Net_Stdout
       log_call fst snd client_url node_client node_id
       server calls stdout].

Ltac branch :=
  match goal with
  | |- context [match reply ?s ?h ?c with _ => _ end] =>
      destruct (reply s h c) eqn:?
  | |- context [match builtin_float ?v with _ => _ end] =>
      destruct (builtin_float v) eqn:?
  | |- context [match MachineState.call ?v with _ => _ end] =>
      destruct (MachineState.call v) eqn:?
  | |- context [match builtin_str ?v with _ => _ end] =>
      destruct (builtin_str v) eqn:?
  | |- context [if isinstance_Exception ?e then _ else _] =>
      destruct (isinstance_Exception e) eqn:?
  | |- context [if isinstance_ValueError ?e then _ else _] =>
      destruct (isinstance_ValueError e) eqn:?
  end.

Ltac all_paths := run_all; repeat (branch; cbv beta iota).

Ltac new_calls :=
  rewrite <- ?app_assoc; cbn [app]; eexists; (split; [reflexivity|]).

Ltac each_call :=
  repeat first [apply Forall_nil | apply Forall_cons];
  try reflexivity; try exact I;
  cbv [node_among call_node In]; auto.

(** A freshly constructed client has no session. *)
Lemma init_has_no_session (url : option string) :
  OPCUABatchPlantClient.client (OPCUABatchPlantClient.__init__ url) = None.
Proof. reflexivity. Qed.

(** Once the library's client object exists, [connect] leaves it in the
    object whether or not the connection succeeds. *)
Lemma connect_keeps_client (self : OPCUABatchPlantClient.t) (net : Net) :
  reply (server net) (calls net)
        (ClientNew (OPCUABatchPlantClient.server_url self)) = None ->
  OPCUABatchPlantClient.client (fst (snd (OPCUABatchPlantClient.connect (self, net))))
  = Some (mkClient (OPCUABatchPlantClient.server_url self)).
Proof.
  intros Hnew. destruct self as [url c], net as [srv log out].
  run_all. cbv [server calls OPCUABatchPlantClient.server_url] in Hnew.
  rewrite Hnew. cbv beta iota. branch; reflexivity.
Qed.

(** [disconnect] never resets the [client] field. *)
Lemma disconnect_keeps_object (self : OPCUABatchPlantClient.t) (net : Net) :
  fst (snd (OPCUABatchPlantClient.disconnect (self, net))) = self.
Proof.
  destruct self as [url [c|]], net as [srv log out]; run_all;
    [branch|]; reflexivity.
Qed.

Lemma opens_app (l1 l2 : list Call) : opens (l1 ++ l2) = (opens l1 + opens l2)%nat.
Proof. unfold opens. now rewrite filter_app, length_app. Qed.

Lemma closes_app (l1 l2 : list Call) : closes (l1 ++ l2) = (closes l1 + closes l2)%nat.
Proof. unfold closes. now rewrite filter_app, length_app. Qed.

Ltac one_session_paths :=
  all_paths; new_calls; (split; [reflexivity|]);
  first [left; reflexivity | right; split; reflexivity].

Lemma material_availability_session (net : Net) :
  exists new,
    calls (snd (get_material_availability net)) = (calls net ++ new)%list
    /\ one_session new.
Proof. destruct net as [srv log out]. one_session_paths. Qed.

Lemma machine_states_session (net : Net) :
  exists new,
    calls (snd (get_machine_states net)) = (calls net ++ new)%list
    /\ one_session new.
Proof. destruct net as [srv log out]. one_session_paths. Qed.


(** Opens and closes stay equal across any number of invocations. *)
Lemma standalone_queries_keep_balance (net : Net) :
  opens (calls net) = closes (calls net) ->
  opens (calls (snd (get_material_availability net)))
  = closes (calls (snd (get_material_availability net)))
  /\ opens (calls (snd (get_machine_states net)))
     = closes (calls (snd (get_machine_states net))).
Proof.
  intros Hb.
  destruct (material_availability_session net) as [n1 [E1 [B1 _]]].
  destruct (machine_states_session net) as [n2 [E2 [B2 _]]].
  rewrite E1, E2, !opens_app, !closes_app. lia.
Qed.

(** C8, as the code has it.  On a session that was never opened (no
    client object) [disconnect] returns without raising and changes
    nothing.  On a session whose client object exists (opened, opened only
    partway, or closed before) every [disconnect] makes one more
    [disconnect] call on the library's client and raises exactly when that
    call raises. *)
Theorem disconnect_delegates_to_client (self : OPCUABatchPlantClient.t) (net : Net) :
  (OPCUABatchPlantClient.client self = None ->
     OPCUABatchPlantClient.disconnect (self, net) = (Return tt, (self, net)))
  /\ (forall c, OPCUABatchPlantClient.client self = Some c ->
       OPCUABatchPlantClient.disconnect (self, net)
       = (match reply (server net) (calls net) (ClientDisconnect (client_url c)) with
          | Some e => Raise e
          | None => Return tt
          end,
          (self, log_call (ClientDisconnect (client_url c)) net))).
Proof.
  destruct self as [url cl], net as [srv log out]. split.
  - cbn [OPCUABatchPlantClient.client]. intros ->. reflexivity.
  - cbn [OPCUABatchPlantClient.client]. intros c ->.
    run_all. branch; reflexivity.
Qed.

(** C9, as the code has it.  The standalone telemetry queries address
    every call to the module constant [SERVER_URL] and name no node other
    than the module constants (the three tank-level identifiers, the three
    machine-state identifiers); on a plant that answers every call, all
    three identifiers of the query are read, in order. *)
Theorem standalone_queries_use_module_constants (net : Net) :
  (exists new,
      calls (snd (get_material_availability net)) = (calls net ++ new)%list
      /\ Forall (fun c => call_url c = SERVER_URL) new
      /\ Forall (node_among [TANK1_LEVEL_NODE_ID; TANK2_LEVEL_NODE_ID;
                             TANK3_LEVEL_NODE_ID]) new)
  /\ (exists new,
      calls (snd (get_machine_states net)) = (calls net ++ new)%list
      /\ Forall (fun c => call_url c = SERVER_URL) new
      /\ Forall (node_among [MIXER_STATE_NODE_ID; REACTOR_STATE_NODE_ID;
                             FILLER_STATE_NODE_ID]) new)
  /\ ((forall h c, reply (server net) h c = None) ->
      calls (snd (get_material_availability net))
      = (calls net ++
         [ClientNew SERVER_URL; ClientConnect SERVER_URL;
          GetNode SERVER_URL TANK1_LEVEL_NODE_ID;
          GetNode SERVER_URL TANK2_LEVEL_NODE_ID;
          GetNode SERVER_URL TANK3_LEVEL_NODE_ID;
          ReadValue SERVER_URL TANK1_LEVEL_NODE_ID;
          ReadValue SERVER_URL TANK2_LEVEL_NODE_ID;
          ReadValue SERVER_URL TANK3_LEVEL_NODE_ID;
          ClientDisconnect SERVER_URL])%list
      /\ calls (snd (get_machine_states net))
      = (calls net ++
         [ClientNew SERVER_URL; ClientConnect SERVER_URL;
          GetNode SERVER_URL MIXER_STATE_NODE_ID;
          GetNode SERVER_URL REACTOR_STATE_NODE_ID;
          GetNode SERVER_URL FILLER_STATE_NODE_ID;
          ReadValue SERVER_URL MIXER_STATE_NODE_ID;
          ReadValue SERVER_URL REACTOR_STATE_NODE_ID;
          ReadValue SERVER_URL FILLER_STATE_NODE_ID;
          ClientDisconnect SERVER_URL])%list).
Proof.
  destruct net as [srv log out]. split; [|split].
  - all_paths; new_calls; split; each_call.
  - all_paths; new_calls; split; each_call.
  - cbn [server]. intros Hok. split.
    + run_all. repeat (rewrite Hok; cbv beta iota).
      repeat (branch; cbv beta iota);
        rewrite <- ?app_assoc; reflexivity.
    + run_all. repeat (rewrite Hok; cbv beta iota).
      repeat (branch; cbv beta iota);
        rewrite <- ?app_assoc; reflexivity.
Qed.

(** C10.  The synchronous wrappers, called directly or through their
    tools, do with any positional and keyword arguments exactly what they
    do with none: same outcome, same calls on the plant, same output. *)
Theorem sync_wrappers_ignore_arguments
    (args : list PyArg) (kwargs : list (string * PyArg)) (net : Net) :
  material_availability_sync args kwargs net = material_availability_sync [] [] net
  /\ machine_states_sync args kwargs net = machine_states_sync [] [] net
  /\ Tool.func get_material_availability_tool args kwargs net
     = Tool.func get_material_availability_tool [] [] net
  /\ Tool.func get_machine_states_tool args kwargs net
     = Tool.func get_machine_states_tool [] [] net
  /\ material_availability_sync args kwargs net = get_material_availability net
  /\ machine_states_sync args kwargs net = get_machine_states net.
Proof.
  unfold get_material_availability_tool, get_machine_states_tool.
  cbn [Tool.func].
  unfold material_availability_sync, machine_states_sync, asyncio_run.
  repeat split.
Qed.

(** Converting a number to text raises nothing but the limit error. *)
Lemma builtin_str_raises (v : PyNum) (e : Exn) :
  builtin_str v = Raise e -> e = str_limit_error.
Proof.
  destruct v as [n|x]; cbn [builtin_str]; [|discriminate].
  unfold str_of_int. destruct (Nat.ltb MAX_STR_DIGITS (digits n));
    intros Hr; [now injection Hr as <- | discriminate Hr].
Qed.

(** The enum call raises nothing but [ValueError]. *)
Lemma call_raises_ValueError (v : PyNum) (e : Exn) :
  MachineState.call v = Raise e -> isinstance_ValueError e = true.
Proof.
  assert (Hm : isinstance_ValueError (MachineState.not_a_member v) = true).
  { unfold MachineState.not_a_member.
    destruct (builtin_str v) as [text|e'] eqn:Hs; [reflexivity|].
    now rewrite (builtin_str_raises v e' Hs). }
  unfold MachineState.call.
  destruct (as_integer v) as [n|]; [destruct (MachineState.by_value n)|];
    intros Hc; try discriminate Hc; injection Hc as <-; exact Hm.
Qed.

(** A number that prints is decoded to its state text. *)
Lemma int_to_state_string_is_state_string {S : Type} (s : S) (v : PyNum) :
  builtin_str v = Return (number_text v) ->
  OPCUABatchPlantClient._int_to_state_string v s = (Return (state_string v), s).
Proof.
  intros Hs.
  unfold OPCUABatchPlantClient._int_to_state_string, state_string, try_except,
    bind, lift_outcome, ret.
  destruct (MachineState.call v) as [m|e] eqn:Hc; [reflexivity|].
  cbn [select_handler]. rewrite (call_raises_ValueError v e Hc).
  now rewrite Hs.
Qed.

(** What the decoder returns, when it returns, is a state's name or an
    unknown variant. *)
Lemma int_to_state_string_returns {S : Type} (s : S) (v : PyNum) (text : string) :
  fst (OPCUABatchPlantClient._int_to_state_string v s) = Return text ->
  (exists m, text = lower (MachineState.name m))
  \/ (exists t, text = "unknown_state_" ++ t).
Proof.
  unfold OPCUABatchPlantClient._int_to_state_string, try_except,
    bind, lift_outcome, ret.
  destruct (MachineState.call v) as [m|e] eqn:Hc.
  - cbn [fst]. intros Hr. injection Hr as <-. left. now exists m.
  - cbn [select_handler]. rewrite (call_raises_ValueError v e Hc).
    destruct (builtin_str v) as [t|e']; cbn [fst]; intros Hr;
      [|discriminate Hr].
    injection Hr as <-. right. now exists t.
Qed.

(** The library delivers numbers that print. *)
Lemma reading_prints (srv : Server) (h : list Call) (url node : string) :
  builtin_str (node_value srv h url node)
  = Return (number_text (node_value srv h url node)).
Proof.
  destruct (node_value srv h url node) as [n|x] eqn:Hv; cbn [builtin_str number_text].
  - apply str_of_int_within. exact (node_value_digits srv h url node n Hv).
  - reflexivity.
Qed.

Ltac no_other_error :=
  match goal with
  | H1 : MachineState.call ?v = Raise ?e,
    H2 : isinstance_ValueError ?e = false |- _ =>
      rewrite (call_raises_ValueError v e H1) in H2; discriminate H2
  end.

(** The outcome of printing a reading, read off the library's contract. *)
Ltac reading_text :=
  repeat match goal with
         | H : builtin_str (node_value _ _ _ _) = _ |- _ =>
             rewrite reading_prints in H;
             first [discriminate H | injection H as <-]
         end.



(** When the close fails, its exception is what the caller gets, whether
    the query had a result or had failed before. *)
Theorem failing_close_replaces_outcome (net : Net) (e : Exn) :
  reply (server net) (calls net) (ClientNew SERVER_URL) = None ->
  (forall h, reply (server net) h (ClientDisconnect SERVER_URL) = Some e) ->
  fst (get_material_availability net) = Raise e
  /\ fst (get_machine_states net) = Raise e.
Proof.
  destruct net as [srv log out]. cbn [server calls]. intros Hnew Hclose.
  split; run_all; rewrite Hnew; cbv beta iota;
    repeat (first [rewrite Hclose | branch]; cbv beta iota); reflexivity.
Qed.

(** A query raises nothing of its own: an exception that reaches the
    caller was raised by a call on the library or, for the tank levels,
    by the conversion of a reading to a float.  The decoding of the
    machine states adds no failure. *)
Theorem standalone_queries_raise_what_was_raised (net : Net) (e : Exn) :
  (fst (get_material_availability net) = Raise e ->
     (exists h c, reply (server net) h c = Some e)
     \/ (exists v, builtin_float v = Raise e))
  /\ (fst (get_machine_states net) = Raise e ->
     exists h c, reply (server net) h c = Some e).
Proof.
  destruct net as [srv log out]. cbn [server]. split.
  - all_paths; cbn [fst]; intros Hr; try discriminate Hr;
      injection Hr as <-; eauto.
  - all_paths; cbn [fst]; intros Hr; try discriminate Hr;
      try no_other_error; reading_text; injection Hr as <-; eauto.
Qed.

(** On a plant that answers every call the machine states are returned
    whatever values are read: each reading, listed code or not, integer or
    float, appears as its decoded text under the machine's key. *)
Theorem machine_states_returned_for_any_reading (net : Net) :
  (forall h c, reply (server net) h c = None) ->
  let h1 := (calls net ++ firstn 5 states_script)%list in
  let h2 := (calls net ++ firstn 6 states_script)%list in
  let h3 := (calls net ++ firstn 7 states_script)%list in
  fst (get_machine_states net)
  = Return (json_dumps (str_dict
      [("mixer_state",
        state_string (node_value (server net) h1 SERVER_URL MIXER_STATE_NODE_ID));
       ("reactor_state",
        state_string (node_value (server net) h2 SERVER_URL REACTOR_STATE_NODE_ID));
       ("filler_state",
        state_string (node_value (server net) h3 SERVER_URL FILLER_STATE_NODE_ID))])).
Proof.
  destruct net as [srv log out]. cbn [server calls]. intros Hok.
  cbv zeta. unfold state_string, states_script. cbn [firstn].
  run_all. rewrite <- ?app_assoc. cbn [app].
  repeat (first [rewrite Hok | branch]; cbv beta iota; rewrite <- ?app_assoc; cbn [app]);
    try no_other_error; reading_text; reflexivity.
Qed.

(** A query prints at most one line, the report of a failed node access,
    read or conversion; it prints nothing when it returns, and nothing
    when the session cannot be opened. *)
Theorem standalone_queries_report_once (net : Net) :
  (exists out,
      stdout (snd (get_material_availability net)) = (stdout net ++ out)%list
      /\ (out = [] \/ exists e, out = ["Error reading material levels: " ++ exn_str e])
      /\ ((exists r, fst (get_material_availability net) = Return r) -> out = [])
      /\ ((exists k, (k <= 2)%nat
                     /\ calls (snd (get_material_availability net))
                        = (calls net ++ stopped_after material_script k)%list)
          -> out = []))
  /\ (exists out,
      stdout (snd (get_machine_states net)) = (stdout net ++ out)%list
      /\ (out = [] \/ exists e, out = ["Error reading machine states: " ++ exn_str e])
      /\ ((exists r, fst (get_machine_states net) = Return r) -> out = [])
      /\ ((exists k, (k <= 2)%nat
                     /\ calls (snd (get_machine_states net))
                        = (calls net ++ stopped_after states_script k)%list)
          -> out = [])).
Proof.
  destruct net as [srv log out0]. split.
  - all_paths; cbn [fst];
      first [ exists []; rewrite app_nil_r; split; [reflexivity|];
              split; [left; reflexivity|]; split; intros _; reflexivity
            | eexists; split; [reflexivity|];
              split; [right; eexists; reflexivity|];
              split;
              [ intros [r Hr]; discriminate Hr
              | intros [k [Hk Hc]]; exfalso; rewrite <- ?app_assoc in Hc;
                apply app_inv_head in Hc;
                destruct k as [|[|[|k]]]; try lia; discriminate Hc ] ].
  - all_paths; cbn [fst];
      first [ exists []; rewrite app_nil_r; split; [reflexivity|];
              split; [left; reflexivity|]; split; intros _; reflexivity
            | eexists; split; [reflexivity|];
              split; [right; eexists; reflexivity|];
              split;
              [ intros [r Hr]; discriminate Hr
              | intros [k [Hk Hc]]; exfalso; rewrite <- ?app_assoc in Hc;
                apply app_inv_head in Hc;
                destruct k as [|[|[|k]]]; try lia; discriminate Hc ] ].
Qed.

(** A method called on an object that holds no client raises
    [AttributeError] at its first node access, prints its report and makes
    no call on the library. *)
Theorem methods_need_a_session (self : OPCUABatchPlantClient.t) (net : Net) :
  OPCUABatchPlantClient.client self = None ->
  let e := mkExn AttributeError "'NoneType' object has no attribute 'get_node'" in
  OPCUABatchPlantClient.get_material_availability (self, net)
  = (Raise e, (self, write ("Error reading material levels: " ++ exn_str e) net))
  /\ OPCUABatchPlantClient.get_machine_states (self, net)
     = (Raise e, (self, write ("Error reading machine states: " ++ exn_str e) net)).
Proof.
  destruct self as [url cl], net as [srv log out].
  cbn [OPCUABatchPlantClient.client]. intros ->. split; reflexivity.
Qed.

(** All three tanks are read before any level is converted.  On a plant
    that answers every call, the levels are returned when all three
    convert; when one does not, the query raises the conversion error of
    the first such level, after reading all three tanks, printing the
    error and closing the session. *)
Theorem material_levels_convert_after_all_reads (net : Net) :
  (forall h c, reply (server net) h c = None) ->
  let v1 := node_value (server net) (calls net ++ firstn 5 material_script)%list
              SERVER_URL TANK1_LEVEL_NODE_ID in
  let v2 := node_value (server net) (calls net ++ firstn 6 material_script)%list
              SERVER_URL TANK2_LEVEL_NODE_ID in
  let v3 := node_value (server net) (calls net ++ firstn 7 material_script)%list
              SERVER_URL TANK3_LEVEL_NODE_ID in
  let closed := (calls net ++ material_script ++ [ClientDisconnect SERVER_URL])%list in
  (forall f1 f2 f3,
     builtin_float v1 = Return f1 ->
     builtin_float v2 = Return f2 ->
     builtin_float v3 = Return f3 ->
     get_material_availability net
     = (Return (json_dumps (float_dict [("tank1_material_level", f1);
                                        ("tank2_material_level", f2);
                                        ("tank3_material_level", f3)])),
        {| server := server net; calls := closed; stdout := stdout net |}))
  /\ (forall e,
        isinstance_Exception e = true ->
        builtin_float v1 = Raise e
        \/ (exists f1, builtin_float v1 = Return f1
            /\ (builtin_float v2 = Raise e
                \/ exists f2, builtin_float v2 = Return f2
                              /\ builtin_float v3 = Raise e)) ->
        get_material_availability net
        = (Raise e,
           {| server := server net; calls := closed;
              stdout := (stdout net
                         ++ [("Error reading material levels: " ++ exn_str e)%string])%list |})).
Proof.
  destruct net as [srv log out]. cbn [server calls stdout]. intros Hok.
  cbv zeta. unfold material_script. cbn [firstn].
  split.
  - intros f1 f2 f3 H1 H2 H3. run_all. rewrite <- ?app_assoc. cbn [app].
    repeat (rewrite Hok; cbv beta iota; rewrite <- ?app_assoc; cbn [app]).
    rewrite H1. cbv beta iota. rewrite H2. cbv beta iota. rewrite H3.
    cbv beta iota.
    repeat (rewrite Hok; cbv beta iota; rewrite <- ?app_assoc; cbn [app]).
    reflexivity.
  - intros e Hexc Hbad. run_all. rewrite <- ?app_assoc. cbn [app].
    repeat (rewrite Hok; cbv beta iota; rewrite <- ?app_assoc; cbn [app]).
    destruct Hbad as [H1 | [f1 [H1 [H2 | [f2 [H2 H3]]]]]].
    + rewrite H1. cbv beta iota. rewrite Hexc. cbv beta iota.
      repeat (rewrite Hok; cbv beta iota; rewrite <- ?app_assoc; cbn [app]).
      reflexivity.
    + rewrite H1. cbv beta iota. rewrite H2. cbv beta iota.
      rewrite Hexc. cbv beta iota.
      repeat (rewrite Hok; cbv beta iota; rewrite <- ?app_assoc; cbn [app]).
      reflexivity.
    + rewrite H1. cbv beta iota. rewrite H2. cbv beta iota. rewrite H3.
      cbv beta iota. rewrite Hexc. cbv beta iota.
      repeat (rewrite Hok; cbv beta iota; rewrite <- ?app_assoc; cbn [app]).
      reflexivity.
Qed.

End Sessions.

(* ===================================================================== *)
(** ** Further properties of the decoder and of the example program      *)
(* ===================================================================== *)

Section Decoding.
Context `{PyFloat}.

(** How the decoder leaves an integer code: with a listed state's name,
    with the unknown variant of the code, or with the limit error. *)
Lemma decode_cases {S : Type} (s : S) (n : Z) :
  (exists m, MachineState.value m = n
     /\ OPCUABatchPlantClient._int_to_state_string (PInt n) s
        = (Return (lower (MachineState.name m)), s))
  \/ OPCUABatchPlantClient._int_to_state_string (PInt n) s
     = (Return ("unknown_state_" ++ decimal_text n), s)
  \/ OPCUABatchPlantClient._int_to_state_string (PInt n) s
     = (Raise str_limit_error, s).
Proof.
  destruct (Nat.le_gt_cases (digits n) MAX_STR_DIGITS) as [Hd|Hd].
  - destruct (Z_le_gt_dec 0 n) as [Hlo|Hlo]; [destruct (Z_le_gt_dec n 7) as [Hhi|Hhi]|].
    + destruct (range_has_member n (conj Hlo Hhi)) as [m Hm].
      left. exists m. split; [exact Hm|]. rewrite <- Hm. apply decode_member.
    + right. left. apply decode_unknown; [lia | exact Hd].
    + right. left. apply decode_unknown; [lia | exact Hd].
  - right. right. now apply decode_beyond.
Qed.

(** The text the decoder returns determines the code: two integer codes,
    listed or not, for which it returns the same text are equal. *)
Theorem decoder_is_injective {S : Type} (s : S) (a b : Z) (text : string) :
  fst (OPCUABatchPlantClient._int_to_state_string (PInt a) s) = Return text ->
  fst (OPCUABatchPlantClient._int_to_state_string (PInt b) s) = Return text ->
  a = b.
Proof.
  destruct (decode_cases s a) as [[ma [<- ->]] | [-> | ->]];
    destruct (decode_cases s b) as [[mb [<- ->]] | [-> | ->]];
    cbn [fst]; intros Ha Hb; try discriminate Ha; try discriminate Hb.
  - assert (Hn : lower (MachineState.name ma) = lower (MachineState.name mb))
      by congruence.
    destruct ma, mb; simpl in Hn; try discriminate Hn; reflexivity.
  - exfalso. apply (unknown_state_is_no_name ma (decimal_text b)). congruence.
  - exfalso. apply (unknown_state_is_no_name mb (decimal_text a)). congruence.
  - apply unknown_state_carries_code. congruence.
Qed.

(** A float reading is decoded too: one that equals a listed code gives
    that state's name, any other gives the unknown variant with the
    float's text; no float makes the decoder raise. *)
Theorem decoder_accepts_floats {S : Type} (s : S) (x : pyfloat) :
  (forall m, float_integral x = Some (MachineState.value m) ->
     OPCUABatchPlantClient._int_to_state_string (PFloat x) s
     = (Return (lower (MachineState.name m)), s))
  /\ (float_integral x = None
      \/ (exists n, float_integral x = Some n /\ (n < 0 \/ 7 < n)) ->
      OPCUABatchPlantClient._int_to_state_string (PFloat x) s
      = (Return ("unknown_state_" ++ float_str x), s)).
Proof.
  split.
  - intros m Hx.
    unfold OPCUABatchPlantClient._int_to_state_string, try_except, bind,
      lift_outcome, MachineState.call.
    cbn [as_integer]. rewrite Hx, by_value_in_range. reflexivity.
  - intros Hx.
    unfold OPCUABatchPlantClient._int_to_state_string, try_except, bind,
      lift_outcome, MachineState.call, MachineState.not_a_member.
    cbn [as_integer builtin_str]. destruct Hx as [Hx | [n [Hx Hn]]]; rewrite Hx.
    + reflexivity.
    + rewrite (by_value_out_of_range n Hn). reflexivity.
Qed.

(** No text the decoder returns is marked as a fault by the report of
    main.py: every state, the downtime states and the unknown variant
    included, gets the green icon. *)
Theorem decoded_states_show_green {S : Type} (s : S) (v : PyNum) (text : string) :
  fst (OPCUABatchPlantClient._int_to_state_string v s) = Return text ->
  status_icon text = "🟢".
Proof.
  intros Hr.
  destruct (int_to_state_string_returns s v text Hr) as [[m ->] | [t ->]].
  - destruct m; reflexivity.
  - reflexivity.
Qed.

End Decoding.

Section ExampleProgram.
Context `{JsonDumps}.

(** The example program runs its two queries in two sessions, one after
    the other.  The first session is that of the material query, run
    after the first title is printed.  When that query raises, the
    program raises the same exception there and then: nothing more is
    called or printed, and the second query is not run.  When it returns,
    the program prints the levels, an empty line and the second title,
    and ends as the state query and the printing of its result do, with
    the calls of that query, a second session, after those of the
    first. *)
Theorem main_runs_one_session_per_query (net : Net) :
  exists n1 n2,
    calls (snd (main net)) = (calls net ++ n1 ++ n2)%list
    /\ calls (snd (get_material_availability (write "Material Availability:" net)))
       = (calls net ++ n1)%list
    /\ one_session n1
    /\ match get_material_availability (write "Material Availability:" net) with
       | (Raise e, net2) => n2 = [] /\ main net = (Raise e, net2)
       | (Return levels, net2) =>
           one_session n2
           /\ calls (snd (get_machine_states
                            (write "Machine States:" (write "" (write levels net2)))))
              = (calls net2 ++ n2)%list
           /\ main net
              = (states <- get_machine_states ;; print states)
                  (write "Machine States:" (write "" (write levels net2)))
       end.
Proof.
  unfold main, bind, print, modify.
  destruct (material_availability_session (write "Material Availability:" net))
    as [n1 [E1 S1]].
  destruct (get_material_availability (write "Material Availability:" net))
    as [[levels|e] net2] eqn:Hq1; cbn [snd] in E1.
  - destruct (machine_states_session
                (write "Machine States:" (write "" (write levels net2))))
      as [n2 [E2 S2]].
    exists n1, n2.
    split; [|split; [exact E1|split; [exact S1|split; [exact S2|split]]]].
    + destruct (get_machine_states
                  (write "Machine States:" (write "" (write levels net2))))
        as [[states|e] net4]; cbn [snd] in E2 |- *;
        cbn [write Net_Stdout calls] in *; rewrite E2, E1, app_assoc;
        reflexivity.
    + exact E2.
    + reflexivity.
  - exists n1, []. cbn [snd fst].
    split; [|split; [exact E1|split; [exact S1|split; reflexivity]]].
    cbn [write Net_Stdout calls] in E1. now rewrite E1, app_nil_r.
Qed.

End ExampleProgram.

(* ===================================================================== *)
(** ** Properties of the recipe lookup                                   *)
(* ===================================================================== *)

Section Ordering.
Context `{PyFloat}.

Lemma insert_by_tank_number_perm (r : Row) (rows : list Row) :
  Permutation (r :: rows) (insert_by_tank_number r rows).
Proof.
  induction rows as [|r' rest IH]; simpl.
  - apply Permutation_refl.
  - destruct (tank_number r <=? tank_number r').
    + apply Permutation_refl.
    + eapply perm_trans; [apply perm_swap|]. now apply perm_skip.
Qed.

Lemma insert_by_tank_number_sorted (r : Row) (rows : list Row) :
  StronglySorted by_tank rows ->
  StronglySorted by_tank (insert_by_tank_number r rows).
Proof.
  induction rows as [|r' rest IH]; intros Hs; simpl.
  - constructor; constructor.
  - inversion Hs as [|? ? Hrest Hall]; subst.
    destruct (Z.leb_spec (tank_number r) (tank_number r')) as [Hle|Hgt].
    + constructor; [exact Hs|].
      constructor; [exact Hle|].
      eapply Forall_impl; [|exact Hall].
      intros a Ha. unfold by_tank in *. lia.
    + constructor; [now apply IH|].
      eapply Permutation_Forall; [apply insert_by_tank_number_perm|].
      constructor; [unfold by_tank; lia|exact Hall].
Qed.

Lemma order_by_tank_number_sorted (rows : list Row) :
  StronglySorted by_tank (order_by_tank_number rows).
Proof.
  induction rows as [|r rest IH]; simpl.
  - constructor.
  - now apply insert_by_tank_number_sorted.
Qed.

(** [ORDER BY] rearranges the selected rows; it adds and drops none. *)
Lemma order_by_tank_number_perm (rows : list Row) :
  Permutation rows (order_by_tank_number rows).
Proof.
  induction rows as [|r rest IH]; simpl.
  - constructor.
  - eapply perm_trans; [apply perm_skip, IH|].
    apply insert_by_tank_number_perm.
Qed.

Lemma by_tank_sorted_numbers (rows : list Row) :
  StronglySorted by_tank rows -> StronglySorted Z.le (map tank_number rows).
Proof.
  induction 1 as [|r rest Hrest IH Hall]; simpl; constructor.
  - exact IH.
  - rewrite Forall_map. exact Hall.
Qed.

Lemma select_recipe_sorted (t : Tables) (name : string) :
  StronglySorted Z.le (map tank_number (select_recipe t name)).
Proof. apply by_tank_sorted_numbers, order_by_tank_number_sorted. Qed.

End Ordering.

Section Lookup.
Context `{JsonDumps}.

(** The loop touches nothing but its accumulator. *)
Lemma append_rows_state {S : Type} (rows : list Row) (acc : list Json) (s : S) :
  snd (append_rows rows acc s) = s.
Proof.
  revert acc. induction rows as [|r rest IH]; intros acc; simpl.
  - reflexivity.
  - unfold bind, lift_outcome. destruct (builtin_float (quantity r)).
    + apply IH.
    + reflexivity.
Qed.

(** When the loop completes it has appended one line per row, in the
    order of the rows. *)
Lemma append_rows_result {S : Type} (rows : list Row) (acc out : list Json) (s : S) :
  fst (append_rows rows acc s) = Return out ->
  exists lines,
    out = (acc ++ map line_json lines)%list /\ Forall2 row_converts rows lines.
Proof.
  revert acc. induction rows as [|r rest IH]; intros acc; simpl.
  - intros Hr. injection Hr as <-. exists []. simpl.
    rewrite app_nil_r. split; [reflexivity|constructor].
  - unfold bind, lift_outcome.
    destruct (builtin_float (quantity r)) as [q|e] eqn:Hq; [|discriminate].
    intros Hr. destruct (IH _ Hr) as [lines [Hout Hall]].
    exists (mkRecipeLine (material_name r) (tank_number r) q :: lines).
    split.
    + rewrite Hout, <- app_assoc. reflexivity.
    + constructor; [|exact Hall]. repeat split. exact Hq.
Qed.

Lemma append_rows_nil {S : Type} (acc : list Json) (s : S) :
  append_rows [] acc s = (Return acc, s).
Proof. reflexivity. Qed.

Lemma row_converts_tanks (rows : list Row) (lines : list RecipeLine) :
  Forall2 row_converts rows lines ->
  map line_tank lines = map tank_number rows.
Proof.
  induction 1 as [|r l rows lines [_ [Ht _]] _ IH]; simpl.
  - reflexivity.
  - now rewrite Ht, IH.
Qed.

Ltac run_lookup :=
  cbv [get_product_details with_object try_finally try_except select_handler
       get_db_connection psycopg2_connect Connection_cursor Cursor_execute
       Cursor_fetchall Cursor_close Connection_close log_db_call
       set_result_set raise_if db locals set_conn set_cursor
       bind ret raise modify get lift_outcome print write Db_Stdout
       run_statement DB_CONFIG os_getenv
       database db_calls db_stdout result_set fst snd conn cursor
       connect_raises cursor_raises execute_raises fetchall_raises
       tables environ first_failure];
  rewrite ?String.eqb_refl; cbv beta iota.

Ltac by_class e :=
  let cls := fresh "cls" in
  let msg := fresh "msg" in
  destruct e as [cls msg]; destruct cls;
  cbv [isinstance_psycopg2_Error isinstance_Exception exn_class exn_str] in *;
  cbv beta iota; try discriminate.

Ltac loop_outcome rows :=
  let Hs := fresh "Hstate" in
  let Hr := fresh "Hloop" in
  let Hl := fresh "Hlines" in
  match goal with
  | |- context [@append_rows ?F ?S rows ?acc ?s] =>
      pose proof (append_rows_state (S:=S) rows acc s) as Hs;
      pose proof (fun out => append_rows_result (S:=S) rows acc out s) as Hl;
      destruct (@append_rows F S rows acc s) as [[? | ?] ?] eqn:Hr;
      cbn [fst snd] in Hs, Hl; subst; cbv beta iota
  end.

(** When no library call raises and every quantity converts, the lookup
    returns the serialized recipe. *)
Lemma lookup_returns_document (product_name : string) (w : Db)
    (lines : list RecipeLine) :
  first_failure (database w) = None ->
  Forall2 row_converts (select_recipe (tables (database w)) product_name) lines ->
  fst (get_product_details product_name w)
  = Return (Some (json_dumps (recipe_document product_name lines))).
Proof.
  destruct w as [[env cr kr er fr t] log out rs].
  run_lookup. intros Hff Hrows.
  destruct cr; [discriminate|]. destruct kr; [discriminate|].
  destruct er; [discriminate|]. destruct fr; [discriminate|].
  cbv beta iota.
  assert (Hgen : forall rows acc (s : Locals * Db),
            Forall2 row_converts rows lines ->
            append_rows rows acc s = (Return (acc ++ map line_json lines)%list, s)).
  { clear. intros rows. revert lines.
    induction rows as [|r rest IH]; intros lines acc s Hall;
      inversion Hall as [|? l ? lines' [Hm [Ht Hq]] Hrest]; subst; simpl.
    - now rewrite app_nil_r.
    - unfold bind, lift_outcome. rewrite Hq.
      rewrite (IH lines' _ s Hrest), <- app_assoc.
      unfold line_json at 2. rewrite <- Hm, <- Ht. reflexivity. }
  rewrite (Hgen _ _ _ Hrows). reflexivity.
Qed.

Lemma executed_texts_app (l1 l2 : list DbCall) :
  executed_texts (l1 ++ l2) = (executed_texts l1 ++ executed_texts l2)%list.
Proof.
  induction l1 as [|c rest IH]; simpl; [reflexivity|].
  destruct c; simpl; now rewrite ?IH.
Qed.

Ltac same_texts := cbn [fst snd db_calls]; rewrite ?executed_texts_app; reflexivity.

(** C3, as the code has it.  When a library call of the lookup raises an
    exception derived from [Exception] (the database is unreachable, the
    statement fails), [get_product_details] raises nothing: it returns
    [None].  For a product the database does not know, a lookup that
    meets no failure returns the serialized document with an empty
    recipe.  The two outcomes differ. *)
Theorem lookup_failure_returns_None
    (product_name : string) (w_down w_up : Db) (e : Exn) :
  first_failure (database w_down) = Some e ->
  isinstance_Exception e = true ->
  first_failure (database w_up) = None ->
  select_recipe (tables (database w_up)) product_name = [] ->
  fst (get_product_details product_name w_down) = Return None
  /\ fst (get_product_details product_name w_up)
     = Return (Some (json_dumps (recipe_document product_name [])))
  /\ fst (get_product_details product_name w_down)
     <> fst (get_product_details product_name w_up).
Proof.
  intros Hdown Hexc Hup Hempty.
  assert (H1 : fst (get_product_details product_name w_down) = Return None).
  { clear Hup Hempty. revert Hdown.
    destruct w_down as [[env cr kr er fr t] log out rs].
    run_lookup. intros Hdown.
    destruct cr as [e1|]; cbv beta iota in Hdown;
      [injection Hdown as ->; by_class e; reflexivity|].
    destruct kr as [e1|]; cbv beta iota in Hdown;
      [injection Hdown as ->; by_class e; reflexivity|].
    destruct er as [e1|]; cbv beta iota in Hdown;
      [injection Hdown as ->; by_class e; reflexivity|].
    destruct fr as [e1|]; [|discriminate].
    injection Hdown as ->. by_class e; reflexivity. }
  assert (H2 : fst (get_product_details product_name w_up)
               = Return (Some (json_dumps (recipe_document product_name [])))).
  { apply lookup_returns_document; [exact Hup|]. rewrite Hempty. constructor. }
  split; [exact H1|]. split; [exact H2|].
  rewrite H1, H2. discriminate.
Qed.

(** C6.  Whenever the lookup returns a recipe, the returned text is the
    serialization of the product name and a sequence of lines whose tank
    numbers are in ascending order; the lines are those of the rows the
    statement selects, in the order [ORDER BY rm.tank_number] gives them. *)
Theorem recipe_ordered_by_tank_number
    (product_name : string) (w : Db) (text : string) :
  fst (get_product_details product_name w) = Return (Some text) ->
  exists lines,
    text = json_dumps (recipe_document product_name lines)
    /\ StronglySorted Z.le (map line_tank lines)
    /\ Forall2 row_converts
         (select_recipe (tables (database w)) product_name) lines.
Proof.
  destruct w as [[env cr kr er fr t] log out rs].
  run_lookup.
  destruct cr as [e|]; [by_class e; discriminate|].
  destruct kr as [e|]; [by_class e; discriminate|].
  destruct er as [e|]; [by_class e; discriminate|].
  destruct fr as [e|]; [by_class e; discriminate|].
  cbv beta iota.
  loop_outcome (select_recipe t product_name).
  - cbn [fst]. intros Hret. injection Hret as <-.
    destruct (Hlines _ eq_refl) as [lines [Hout Hall]].
    exists lines. cbn [app] in Hout. subst a.
    split; [reflexivity|]. split; [|exact Hall].
    rewrite (row_converts_tanks _ _ Hall). apply select_recipe_sorted.
  - by_class e; discriminate.
Qed.

Ltac lookup_calls :=
  rewrite <- ?app_assoc; cbn [app]; eexists; (split; [reflexivity|]);
  split;
  [ repeat first [apply Forall_nil | apply Forall_cons];
    cbv [statement_is]; auto
  | let Hc := fresh "Hc" in
    let Hk := fresh "Hk" in
    intros Hc Hk;
    first [ discriminate Hc | discriminate Hk
          | split; [reflexivity | cbn [In]; auto 10] ] ].

(** C7.  Every statement a lookup executes is the constant [query], with
    the product name as its one bound parameter, and a lookup that gets
    its connection and its cursor does execute it: exactly once, with the
    product name bound, whatever the name is.  The texts executed for any
    two product names on the same database are the same. *)
Theorem query_text_independent_of_product (p1 p2 : string) (w : Db) :
  (exists new,
      db_calls (snd (get_product_details p1 w)) = (db_calls w ++ new)%list
      /\ Forall (statement_is query [p1]) new
      /\ (connect_raises (database w) = None ->
          cursor_raises (database w) = None ->
          executed_texts new = [query]
          /\ In (DbExecute query [p1]) new))
  /\ executed_texts (db_calls (snd (get_product_details p1 w)))
     = executed_texts (db_calls (snd (get_product_details p2 w))).
Proof.
  destruct w as [[env cr kr er fr t] log out rs]. split.
  - run_lookup.
    destruct cr as [e|]; [by_class e; lookup_calls|].
    destruct kr as [e|]; [by_class e; lookup_calls|].
    destruct er as [e|]; [by_class e; lookup_calls|].
    destruct fr as [e|]; [by_class e; lookup_calls|].
    cbv beta iota.
    loop_outcome (select_recipe t p1); [lookup_calls|].
    by_class e; lookup_calls.
  - run_lookup.
    destruct cr as [e|]; [by_class e; same_texts|].
    destruct kr as [e|]; [by_class e; same_texts|].
    destruct er as [e|]; [by_class e; same_texts|].
    destruct fr as [e|]; [by_class e; same_texts|].
    cbv beta iota.
    loop_outcome (select_recipe t p1); loop_outcome (select_recipe t p2);
      try by_class e; try by_class e0; same_texts.
Qed.

(** The loop stops at the first quantity that does not convert. *)
Lemma append_rows_raises {S : Type} (rows : list Row) (acc : list Json) (s : S) :
  (exists r e, In r rows /\ builtin_float (quantity r) = Raise e) ->
  exists r e, In r rows /\ builtin_float (quantity r) = Raise e
              /\ fst (append_rows rows acc s) = Raise e.
Proof.
  revert acc. induction rows as [|r rest IH]; intros acc [r0 [e0 [Hin Hq]]].
  - destruct Hin.
  - simpl. unfold bind, lift_outcome.
    destruct (builtin_float (quantity r)) as [q|e] eqn:Hr.
    + destruct Hin as [-> | Hin]; [congruence|].
      destruct (IH (acc ++ [recipe_entry (material_name r) (tank_number r) q])%list)
        as [r1 [e1 [Hin1 [Hq1 Hrun]]]]; [now exists r0, e0|].
      exists r1, e1. repeat split; [now right | exact Hq1 | exact Hrun].
    + exists r, e. repeat split; [now left | exact Hr].
Qed.

(** The lookup releases what it acquired, on every path: the cursor is
    closed when it was obtained, then the connection when it was
    obtained, and nothing is called after the first failure but these.
    At most one statement is executed and fetched. *)
Theorem lookup_releases_what_it_acquired (product_name : string) (w : Db) :
  db_calls (snd (get_product_details product_name w))
  = (db_calls w ++
     match connect_raises (database w) with
     | Some _ => [DbConnect (DB_CONFIG w)]
     | None =>
         match cursor_raises (database w) with
         | Some _ => [DbConnect (DB_CONFIG w); DbCursor; DbConnClose]
         | None =>
             match execute_raises (database w) with
             | Some _ =>
                 [DbConnect (DB_CONFIG w); DbCursor;
                  DbExecute query [product_name];
                  DbCursorClose; DbConnClose]
             | None =>
                 [DbConnect (DB_CONFIG w); DbCursor;
                  DbExecute query [product_name]; DbFetchall;
                  DbCursorClose; DbConnClose]
             end
         end
     end)%list.
Proof.
  destruct w as [[env cr kr er fr t] log out rs].
  run_lookup.
  destruct cr as [e|]; [by_class e; rewrite <- ?app_assoc; reflexivity|].
  destruct kr as [e|]; [by_class e; rewrite <- ?app_assoc; reflexivity|].
  destruct er as [e|]; [by_class e; rewrite <- ?app_assoc; reflexivity|].
  destruct fr as [e|]; [by_class e; rewrite <- ?app_assoc; reflexivity|].
  cbv beta iota.
  loop_outcome (select_recipe t product_name);
    [|by_class e]; cbn [snd db_calls]; rewrite <- ?app_assoc; reflexivity.
Qed.

(** The lookup swallows every exception derived from [Exception]: what
    escapes it is no such exception, and a failure that is none (an
    interrupt) does escape. *)
Theorem lookup_lets_only_non_exceptions_escape
    (product_name : string) (w : Db) (e : Exn) :
  (fst (get_product_details product_name w) = Raise e ->
     isinstance_Exception e = false)
  /\ (first_failure (database w) = Some e ->
      isinstance_Exception e = false ->
      fst (get_product_details product_name w) = Raise e).
Proof.
  destruct w as [[env cr kr er fr t] log out rs]. split.
  - run_lookup.
    destruct cr as [e0|];
      [by_class e0; cbn [fst]; intros Hr; try discriminate Hr;
       injection Hr as <-; reflexivity|].
    destruct kr as [e0|];
      [by_class e0; cbn [fst]; intros Hr; try discriminate Hr;
       injection Hr as <-; reflexivity|].
    destruct er as [e0|];
      [by_class e0; cbn [fst]; intros Hr; try discriminate Hr;
       injection Hr as <-; reflexivity|].
    destruct fr as [e0|];
      [by_class e0; cbn [fst]; intros Hr; try discriminate Hr;
       injection Hr as <-; reflexivity|].
    cbv beta iota.
    loop_outcome (select_recipe t product_name);
      [|by_class e0]; cbn [fst]; intros Hr; try discriminate Hr;
      injection Hr as <-; reflexivity.
  - run_lookup. intros Hff Hexc.
    destruct cr as [e1|]; cbv beta iota in Hff;
      [injection Hff as ->; by_class e; reflexivity|].
    destruct kr as [e1|]; cbv beta iota in Hff;
      [injection Hff as ->; by_class e; reflexivity|].
    destruct er as [e1|]; cbv beta iota in Hff;
      [injection Hff as ->; by_class e; reflexivity|].
    destruct fr as [e1|]; [|discriminate].
    injection Hff as ->. by_class e; reflexivity.
Qed.

(** One quantity that does not convert to a float voids the whole
    recipe: the lookup returns [None], not the lines that did convert. *)
Theorem unconvertible_quantity_voids_recipe (product_name : string) (w : Db) :
  first_failure (database w) = None ->
  (exists r e, In r (select_recipe (tables (database w)) product_name)
               /\ builtin_float (quantity r) = Raise e) ->
  (forall r e, In r (select_recipe (tables (database w)) product_name) ->
               builtin_float (quantity r) = Raise e ->
               isinstance_Exception e = true) ->
  fst (get_product_details product_name w) = Return None.
Proof.
  destruct w as [[env cr kr er fr t] log out rs].
  run_lookup. intros Hff Hbad Hcls.
  destruct cr; [discriminate|]. destruct kr; [discriminate|].
  destruct er; [discriminate|]. destruct fr; [discriminate|].
  cbv beta iota.
  match goal with
  | |- context [@append_rows ?F ?S ?rows ?acc ?s] =>
      destruct (append_rows_raises (S:=S) rows acc s Hbad)
        as [r [e [Hin [Hq Hrun]]]];
      pose proof (Hcls r e Hin Hq) as Hexc;
      pose proof (append_rows_state (S:=S) rows acc s) as Hst;
      destruct (@append_rows F S rows acc s) as [[a|e0] s'] eqn:Hloop;
      cbn [fst snd] in Hrun, Hst; subst s'
  end.
  - discriminate Hrun.
  - injection Hrun as ->. by_class e; reflexivity.
Qed.

(** What a failed lookup prints: the error once, as a database error or
    as an unexpected error by its class; a connection failure of the
    database class is printed twice, first by [get_db_connection].  A
    lookup that returns a recipe prints nothing. *)
Theorem lookup_reports_failures (product_name : string) (w : Db) :
  (forall e, first_failure (database w) = Some e ->
     isinstance_Exception e = true ->
     db_stdout (snd (get_product_details product_name w))
     = (db_stdout w
        ++ (if match connect_raises (database w) with
               | Some _ => isinstance_psycopg2_Error e
               | None => false
               end
            then [("Error connecting to database: " ++ exn_str e)%string] else [])
        ++ [((if isinstance_psycopg2_Error e
              then "Database error: " else "Unexpected error: ") ++ exn_str e)%string])%list)
  /\ (forall text, fst (get_product_details product_name w) = Return (Some text) ->
      db_stdout (snd (get_product_details product_name w)) = db_stdout w).
Proof.
  destruct w as [[env cr kr er fr t] log out rs]. split.
  - intros e. run_lookup. intros Hff Hexc.
    destruct cr as [e1|]; cbv beta iota in Hff;
      [injection Hff as ->; by_class e; rewrite <- ?app_assoc; reflexivity|].
    destruct kr as [e1|]; cbv beta iota in Hff;
      [injection Hff as ->; by_class e; rewrite <- ?app_assoc; reflexivity|].
    destruct er as [e1|]; cbv beta iota in Hff;
      [injection Hff as ->; by_class e; rewrite <- ?app_assoc; reflexivity|].
    destruct fr as [e1|]; [|discriminate].
    injection Hff as ->. by_class e; rewrite <- ?app_assoc; reflexivity.
  - intros text. run_lookup.
    destruct cr as [e|]; [by_class e; discriminate|].
    destruct kr as [e|]; [by_class e; discriminate|].
    destruct er as [e|]; [by_class e; discriminate|].
    destruct fr as [e|]; [by_class e; discriminate|].
    cbv beta iota.
    loop_outcome (select_recipe t product_name);
      [|by_class e; discriminate]. reflexivity.
Qed.

End Lookup.

(* ===================================================================== *)
(** ** Properties of the recipe printer                                  *)
(* ===================================================================== *)

Lemma append_assoc (a b c : string) : (a ++ b) ++ c = a ++ (b ++ c).
Proof. induction a as [|x a IH]; simpl; [reflexivity|now rewrite IH]. Qed.

Lemma py_len_append (a b : string) :
  py_len (a ++ b) = (py_len a + py_len b)%nat.
Proof.
  induction a as [|c a IH]; cbn [append py_len]; [reflexivity|].
  destruct (continues c); rewrite IH; reflexivity.
Qed.

Lemma py_len_spaces (n : nat) : py_len (str_times " " n) = n.
Proof. induction n as [|n IH]; [reflexivity|]. cbn. now rewrite IH. Qed.

Lemma py_len_ljust (width : nat) (s : string) :
  py_len (ljust width s) = Nat.max width (py_len s).
Proof. unfold ljust. rewrite py_len_append, py_len_spaces. lia. Qed.

Section PrinterProperties.
Context `{PyFloat}.

Lemma recipe_row_printable (detail : RecipeLine) :
  printable detail -> recipe_row detail = Return (row_text detail).
Proof.
  unfold printable, recipe_row, row_text, str_of_int. intros Hd.
  apply Nat.leb_le in Hd. unfold Nat.ltb.
  destruct (Nat.leb (S MAX_STR_DIGITS) (digits (line_tank detail))) eqn:Hlt;
    [|reflexivity].
  apply Nat.leb_le in Hlt. apply Nat.leb_le in Hd. lia.
Qed.

Lemma recipe_row_returns (detail : RecipeLine) (row : string) :
  recipe_row detail = Return row -> row = row_text detail.
Proof.
  unfold recipe_row, row_text, str_of_int.
  destruct (Nat.ltb MAX_STR_DIGITS (digits (line_tank detail)));
    [discriminate|]. intros Hr. now injection Hr as <-.
Qed.

Lemma print_rows_output (lines : list RecipeLine) (w : Db) :
  Forall printable lines ->
  print_rows lines w
  = (Return tt,
     {| database := database w; db_calls := db_calls w;
        db_stdout := db_stdout w ++ map row_text lines;
        result_set := result_set w |}).
Proof.
  intros Hall. revert w.
  induction Hall as [|l rest Hl _ IH]; intros [d log out rs].
  - cbn. now rewrite app_nil_r.
  - cbn [print_rows]. unfold bind, lift_outcome.
    rewrite (recipe_row_printable l Hl).
    unfold print, modify. cbn [write Db_Stdout].
    rewrite IH. cbn [database db_calls db_stdout result_set map].
    now rewrite <- app_assoc.
Qed.

(** The printer of a recipe with printable entries never raises and
    touches nothing but the output, to which it adds exactly this: for an
    empty recipe the one line that no recipe was found for the product;
    otherwise an empty line and the title with the product's name, a rule
    of sixty dashes, the header, the same rule, and then the row of each
    entry, in the order of the recipe. *)
Theorem recipe_printer_output
    (product_name : string) (lines : list RecipeLine) (w : Db) :
  Forall printable lines ->
  print_recipe_details product_name lines w
  = (Return tt,
     {| database := database w; db_calls := db_calls w;
        db_stdout := db_stdout w ++ printed product_name lines;
        result_set := result_set w |}).
Proof.
  intros Hall. destruct w as [d log out0 rs]. destruct lines as [|l rest].
  - reflexivity.
  - unfold print_recipe_details, bind, print, modify. cbn [write Db_Stdout].
    rewrite (print_rows_output _ _ Hall).
    cbn [database db_calls db_stdout result_set printed].
    rewrite <- !app_assoc. reflexivity.
Qed.

(** The columns of the table, in characters (code points, as the format
    fields count them): the header is 52 wide, and so is each printed row
    whose material name fits in 30 characters and whose tank number and
    quantity fit in 10; a field that does not fit is printed in full and
    widens its row by the excess.  A row starts with the material name. *)
Theorem recipe_rows_are_aligned (detail : RecipeLine) (row : string) :
  recipe_row detail = Return row ->
  py_len recipe_header = 52%nat
  /\ py_len row
     = (Nat.max 30 (py_len (line_material detail))
        + Nat.max 10 (py_len (decimal_text (line_tank detail)))
        + Nat.max 10 (py_len (float_str (line_quantity detail)))
        + 2)%nat
  /\ exists rest, row = line_material detail ++ rest.
Proof.
  intros Hrow. apply recipe_row_returns in Hrow. subst row.
  split; [reflexivity|]. split.
  - unfold row_text. rewrite !py_len_append, !py_len_ljust.
    change (py_len " ") with 1%nat. lia.
  - unfold row_text, ljust.
    eexists. rewrite append_assoc. reflexivity.
Qed.

End PrinterProperties.

(* ===================================================================== *)
(** ** Properties of the reading of the agent's answer                   *)
(* ===================================================================== *)

Lemma occurs_append (c : ascii) (a b : string) :
  occurs c (a ++ b) <-> occurs c a \/ occurs c b.
Proof.
  induction a as [|c' a IH]; simpl; [tauto|]. rewrite IH. tauto.
Qed.

Lemma from_first_open_split (text rest : string) :
  from_first_open text = Some rest ->
  exists before tail,
    text = before ++ rest /\ rest = String "{" tail /\ ~ occurs "{"%char before.
Proof.
  induction text as [|c text IH]; simpl; [discriminate|].
  destruct (Ascii.eqb_spec c "{") as [-> | Hc].
  - intros Hr. injection Hr as <-. exists "", text. simpl. tauto.
  - intros Hr. destruct (IH Hr) as [before [tail [Ht [Hrest Hno]]]].
    exists (String c before), tail. simpl. rewrite <- Ht.
    repeat split; [exact Hrest|]. intros [Hc' | Ho]; [now apply Hc|now apply Hno].
Qed.

Lemma from_first_open_none (text : string) :
  from_first_open text = None -> ~ occurs "{"%char text.
Proof.
  induction text as [|c text IH]; simpl; [tauto|].
  destruct (Ascii.eqb_spec c "{") as [-> | Hc]; [discriminate|].
  intros Hr [Hc' | Ho]; [now apply Hc|now apply IH].
Qed.

Lemma upto_last_close_split (text prefix : string) :
  upto_last_close text = Some prefix ->
  exists inner after,
    text = prefix ++ after /\ prefix = inner ++ "}" /\ ~ occurs "}"%char after.
Proof.
  revert prefix. induction text as [|c text IH]; simpl; [discriminate|].
  intros prefix.
  destruct (upto_last_close text) as [p|] eqn:Hp.
  - intros Hr. injection Hr as <-.
    destruct (IH p eq_refl) as [inner [after [Ht [Hpre Hno]]]].
    exists (String c inner), after. simpl. rewrite <- Ht, Hpre. tauto.
  - destruct (Ascii.eqb_spec c "}") as [-> | Hc]; [|discriminate].
    intros Hr. injection Hr as <-. exists "", text. simpl.
    repeat split. clear IH. revert Hp.
    induction text as [|c' text IH']; simpl; [tauto|].
    destruct (upto_last_close text); [discriminate|].
    destruct (Ascii.eqb_spec c' "}") as [-> | Hc']; [discriminate|].
    intros _ [Hc'' | Ho]; [now apply Hc'|now apply IH'].
Qed.

Lemma upto_last_close_some (text : string) :
  occurs "}"%char text -> upto_last_close text <> None.
Proof.
  induction text as [|c text IH]; simpl; [tauto|].
  intros [-> | Ho].
  - destruct (upto_last_close text); [discriminate|].
    rewrite Ascii.eqb_refl. discriminate.
  - specialize (IH Ho). destruct (upto_last_close text); [discriminate|].
    now contradiction IH.
Qed.

(** The search finds a span exactly when the text has an opening brace
    with a closing brace somewhere after it; the span then runs from the
    first opening brace of the text to its last closing brace. *)
Theorem search_braces_is_outermost_span (text : string) :
  (forall span, search_braces text = Some span ->
     exists before inner after,
       text = before ++ span ++ after
       /\ span = "{" ++ inner ++ "}"
       /\ ~ occurs "{"%char before
       /\ ~ occurs "}"%char after)
  /\ (search_braces text = None ->
      forall before inner after, text <> before ++ "{" ++ inner ++ "}" ++ after).
Proof.
  unfold search_braces. split.
  - intros span.
    destruct (from_first_open text) as [rest|] eqn:Hopen; [|discriminate].
    destruct (from_first_open_split _ _ Hopen) as [before [tail [Ht [Hrest Hno]]]].
    subst rest.
    destruct (upto_last_close tail) as [p|] eqn:Hclose; [|discriminate].
    intros Hs. injection Hs as <-.
    destruct (upto_last_close_split _ _ Hclose) as [inner [after [Htail [Hp Hna]]]].
    exists before, inner, after. subst p. rewrite Ht, Htail. simpl. tauto.
  - intros Hnone before inner after Htext.
    destruct (from_first_open text) as [rest|] eqn:Hopen.
    + destruct (from_first_open_split _ _ Hopen) as [b [tail [Ht [Hrest Hno]]]].
      subst rest.
      destruct (upto_last_close tail) as [p|] eqn:Hclose; [discriminate|].
      apply (upto_last_close_some tail); [|exact Hclose].
      clear Hnone Hopen Hclose. rewrite Htext in Ht. clear Htext text.
      revert b Hno Ht.
      induction before as [|c before IH]; intros b Hno Ht.
      * destruct b as [|c' b]; simpl in Ht.
        -- injection Ht as <-. rewrite occurs_append. right. simpl. tauto.
        -- injection Ht as <- Ht. exfalso. apply Hno. simpl. tauto.
      * destruct b as [|c' b]; simpl in Ht.
        -- injection Ht as <- Ht. rewrite <- Ht.
           rewrite occurs_append. right. simpl. right.
           rewrite occurs_append. right. simpl. tauto.
        -- injection Ht as <- Ht. apply (IH b); [|exact Ht].
           intros Ho. apply Hno. simpl. tauto.
    + apply (from_first_open_none _ Hopen). subst text.
      rewrite occurs_append. right. simpl. tauto.
Qed.

Section AnswerProperties.
Context `{PyFloat} `{!JsonLoads}.

Lemma scan_items_app (before after : list PyObj) :
  scan_items (before ++ after)
  = match scan_items before with
    | Some v => Some v
    | None => scan_items after
    end.
Proof.
  induction before as [|item before IH]; [reflexivity|].
  cbn [app scan_items].
  destruct item as [| | | | |items|fields]; try exact IH.
  destruct (dict_get fields "text") as [text|]; [|exact IH].
  destruct (item_try text) as [[v|]|e]; [reflexivity|exact IH|exact IH].
Qed.

Lemma scan_items_passed_over (items : list PyObj) :
  Forall passed_over items -> scan_items items = None.
Proof.
  induction 1 as [|item items Hitem _ IH]; [reflexivity|].
  cbn [scan_items]. destruct item as [| | | | |l|fields]; try exact IH.
  unfold passed_over in Hitem.
  destruct (dict_get fields "text") as [text|]; [|exact IH].
  destruct text as [| | | |text|l|l]; try exact IH.
  cbn [item_try]. destruct (search_braces text) as [span|]; [|exact IH].
  destruct Hitem as [e ->]. exact IH.
Qed.

Lemma scan_items_holds_answer (item v : PyObj) (after : list PyObj) :
  holds_answer item v -> scan_items (item :: after) = Some v.
Proof.
  unfold holds_answer. cbn [scan_items].
  destruct item as [| | | | |l|fields]; try contradiction.
  destruct (dict_get fields "text") as [text|]; [|contradiction].
  destruct text as [| | | |text|l|l]; try contradiction.
  cbn [item_try]. destruct (search_braces text) as [span|]; [|contradiction].
  now intros ->.
Qed.

(** Reading a list output.  Each item either is passed over or holds an
    answer.  The extraction returns the answer of the first item that
    holds one: the items before it, passed over, do not stop the loop
    (not those either whose text is no string or does not parse, whose
    error the bare [except] drops), and the items after it are not looked
    at.  When every item is passed over the extraction falls through to
    the check for a [decision] key on the response itself. *)
Theorem extraction_takes_first_answer
    (fields : list (string * PyObj)) (items : list PyObj) :
  dict_get fields "output" = Some (OList items) ->
  (forall before item after v,
      items = (before ++ item :: after)%list ->
      Forall passed_over before ->
      holds_answer item v ->
      extract_json_from_response (ODict fields) = Return v)
  /\ (Forall passed_over items ->
      extract_json_from_response (ODict fields)
      = match dict_get fields "decision" with
        | Some _ => Return (ODict fields)
        | None => Raise could_not_extract
        end)
  /\ (forall item, passed_over item \/ exists v, holds_answer item v).
Proof.
  intros Hout. unfold extract_json_from_response. rewrite Hout.
  split; [|split].
  - intros before item after v -> Hbefore Hitem.
    rewrite scan_items_app, (scan_items_passed_over _ Hbefore).
    now rewrite (scan_items_holds_answer _ _ after Hitem).
  - intros Hall. now rewrite (scan_items_passed_over _ Hall).
  - intros item. unfold passed_over, holds_answer.
    destruct item as [| | | | |l|fs]; try (left; exact I).
    destruct (dict_get fs "text") as [text|]; [|left; exact I].
    destruct text as [| | | |text|l|l]; try (left; exact I).
    destruct (search_braces text) as [span|]; [|left; exact I].
    destruct (json_loads span) as [v|e]; [right; now exists v|left; now exists e].
Qed.

(** The failures of the extraction.  It raises either its own
    [ValueError], and then the response has no [decision] key, or, for a
    string output only, the parser's error on the brace span of a string
    that did not parse as a whole.  With a list output no parser error
    ever reaches the caller. *)
Theorem extraction_failures (response : PyObj) (e : Exn) :
  extract_json_from_response response = Raise e ->
  (e = could_not_extract
   /\ forall fields, response = ODict fields -> dict_get fields "decision" = None)
  \/ (exists fields text span e',
        response = ODict fields
        /\ dict_get fields "output" = Some (OStr text)
        /\ json_loads text = Raise e'
        /\ search_braces text = Some span
        /\ json_loads span = Raise e).
Proof.
  assert (Hown : forall r,
            match r with
            | ODict fields =>
                match dict_get fields "decision" with
                | Some _ => Return r
                | None => Raise could_not_extract
                end
            | _ => Raise could_not_extract
            end = Raise e ->
            e = could_not_extract
            /\ forall fields, r = ODict fields -> dict_get fields "decision" = None).
  { intros r. destruct r as [| | | | |items|fields];
      try (intros Hr; injection Hr as <-; split; [reflexivity|discriminate]).
    destruct (dict_get fields "decision") eqn:Hd; [discriminate|].
    intros Hr. injection Hr as <-. split; [reflexivity|].
    intros fields' Heq. injection Heq as <-. exact Hd. }
  unfold extract_json_from_response.
  destruct response as [| | | | |items|fields]; try (intros Hr; left; now apply Hown).
  destruct (dict_get fields "output") as [[| | | |text|items|fields']|] eqn:Hout;
    try (intros Hr; left; now apply (Hown (ODict fields))).
  - unfold scan_string.
    destruct (json_loads text) as [v|e'] eqn:Hwhole; [discriminate|].
    destruct (search_braces text) as [span|] eqn:Hspan.
    + intros Hr. right. exists fields, text, span, e'. auto.
    + intros Hr. left. now apply (Hown (ODict fields)).
  - destruct (scan_items items); [discriminate|].
    intros Hr. left. now apply (Hown (ODict fields)).
Qed.

End AnswerProperties.

(* ===================================================================== *)
(** ** The properties at work on the test doubles                        *)
(* ===================================================================== *)

(** The power of ten with 4301 digits is beyond the limit. *)
Lemma digits_beyond_limit : (MAX_STR_DIGITS < digits (10 ^ 4300))%nat.
Proof. apply Nat.ltb_lt. vm_compute. reflexivity. Qed.

Lemma int_to_state_string_decodes_witness :
  0 <= 2 <= 7
  /\ (-3 < 0 \/ 7 < -3)
  /\ (digits (-3) <= MAX_STR_DIGITS)%nat
  /\ (MAX_STR_DIGITS < digits (10 ^ 4300))%nat
  /\ OPCUABatchPlantClient._int_to_state_string (PInt 2) tt = (Return "running", tt)
  /\ OPCUABatchPlantClient._int_to_state_string (PInt (-3)) tt
     = (Return "unknown_state_-3", tt)
  /\ (exists r,
        OPCUABatchPlantClient._int_to_state_string (PInt (-3)) tt = (Return r, tt))
  /\ OPCUABatchPlantClient._int_to_state_string (PInt (10 ^ 4300)) tt
     = (Raise str_limit_error, tt).
Proof.
  assert (Hin : 0 <= 2 <= 7) by lia.
  assert (Hout : -3 < 0 \/ 7 < -3) by (left; lia).
  assert (Hd : (digits (-3) <= MAX_STR_DIGITS)%nat) by (apply Nat.leb_le; reflexivity).
  split; [exact Hin|]. split; [exact Hout|]. split; [exact Hd|].
  split; [exact digits_beyond_limit|]. split; [|split; [|split]].
  - destruct (proj1 (int_to_state_string_decodes tt 2) Hin) as [m [Hv Hr]].
    destruct m; simpl in Hv; try discriminate Hv. exact Hr.
  - exact (proj1 (proj2 (int_to_state_string_decodes tt (-3))) Hout Hd).
  - exact (proj1 (proj2 (proj2 (int_to_state_string_decodes tt (-3)))) Hd).
  - exact (proj2 (proj2 (proj2 (int_to_state_string_decodes tt (10 ^ 4300))))
             digits_beyond_limit).
Defined.

(** An integer outside 0..7 for which the decoder raises: the power of
    ten with 4301 digits.  The enumeration rejects it, the handler runs,
    and its f-string raises the [ValueError] of the conversion limit. *)
Lemma int_to_state_string_raises_beyond_limit :
  7 < 10 ^ 4300
  /\ OPCUABatchPlantClient._int_to_state_string (PInt (10 ^ 4300)) tt
     = (Raise str_limit_error, tt)
  /\ isinstance_ValueError str_limit_error = true.
Proof.
  split; [|split].
  - apply Z.lt_le_trans with (10 ^ 1); [reflexivity|].
    apply Z.pow_le_mono_r; [reflexivity | discriminate].
  - apply decode_beyond. exact digits_beyond_limit.
  - reflexivity.
Qed.

(** On a session that was opened and closed, a second [disconnect] is one
    more call on the library (two closes for one open), and it raises
    when the library refuses to close what is not open.  The same holds
    after an open attempt that failed partway. *)
Lemma disconnect_on_closed_session_is_observable :
  let closed (srv : Server) :=
    snd (OPCUABatchPlantClient.disconnect
           (snd (OPCUABatchPlantClient.connect
                   (OPCUABatchPlantClient.__init__ None, fresh_net srv)))) in
  let half_open :=
    snd (OPCUABatchPlantClient.connect
           (OPCUABatchPlantClient.__init__ None, fresh_net unreachable_plant)) in
  calls (snd (closed healthy_plant))
  = [ClientNew SERVER_URL; ClientConnect SERVER_URL; ClientDisconnect SERVER_URL]
  /\ calls (snd (snd (OPCUABatchPlantClient.disconnect (closed healthy_plant))))
     = [ClientNew SERVER_URL; ClientConnect SERVER_URL;
        ClientDisconnect SERVER_URL; ClientDisconnect SERVER_URL]
  /\ OPCUABatchPlantClient.disconnect (closed healthy_plant)
     <> (Return tt, closed healthy_plant)
  /\ fst (OPCUABatchPlantClient.disconnect (closed strict_plant))
     = Raise (mkExn OtherException "not connected")
  /\ calls (snd half_open) = [ClientNew SERVER_URL; ClientConnect SERVER_URL]
  /\ calls (snd (snd (OPCUABatchPlantClient.disconnect half_open)))
     = [ClientNew SERVER_URL; ClientConnect SERVER_URL; ClientDisconnect SERVER_URL].
Proof.
  cbv zeta. repeat split; try reflexivity.
  intros Heq. apply (f_equal (fun r => length (calls (snd (snd r))))) in Heq.
  vm_compute in Heq. discriminate Heq.
Qed.

Lemma disconnect_delegates_to_client_witness :
  let never_opened := OPCUABatchPlantClient.__init__ None in
  let opened := OPCUABatchPlantClient.mk SERVER_URL (Some (mkClient SERVER_URL)) in
  OPCUABatchPlantClient.disconnect (never_opened, fresh_net strict_plant)
  = (Return tt, (never_opened, fresh_net strict_plant))
  /\ OPCUABatchPlantClient.disconnect (opened, fresh_net strict_plant)
     = (Raise (mkExn OtherException "not connected"),
        (opened, log_call (ClientDisconnect SERVER_URL) (fresh_net strict_plant))).
Proof.
  cbv zeta. split.
  - apply (proj1 (disconnect_delegates_to_client
                    (OPCUABatchPlantClient.__init__ None) (fresh_net strict_plant))).
    reflexivity.
  - apply (proj2 (disconnect_delegates_to_client
                    (OPCUABatchPlantClient.mk SERVER_URL (Some (mkClient SERVER_URL)))
                    (fresh_net strict_plant)) (mkClient SERVER_URL)).
    reflexivity.
Defined.

(** A client constructed for another endpoint still connects to
    [SERVER_URL]. *)
Lemma connect_ignores_supplied_url :
  let supplied := "opc.tcp://localhost:4840" in
  let after :=
    snd (OPCUABatchPlantClient.connect
           (OPCUABatchPlantClient.__init__ (Some supplied), fresh_net healthy_plant)) in
  calls (snd after) = [ClientNew SERVER_URL; ClientConnect SERVER_URL]
  /\ SERVER_URL <> supplied
  /\ ~ In (ClientConnect supplied) (calls (snd after)).
Proof.
  cbv zeta. split; [reflexivity|]. split; [discriminate|].
  vm_compute. intros [Hc | [Hc | []]]; discriminate Hc.
Qed.

Lemma standalone_queries_use_module_constants_witness :
  calls (snd (get_material_availability (fresh_net healthy_plant)))
  = [ClientNew SERVER_URL; ClientConnect SERVER_URL;
     GetNode SERVER_URL TANK1_LEVEL_NODE_ID;
     GetNode SERVER_URL TANK2_LEVEL_NODE_ID;
     GetNode SERVER_URL TANK3_LEVEL_NODE_ID;
     ReadValue SERVER_URL TANK1_LEVEL_NODE_ID;
     ReadValue SERVER_URL TANK2_LEVEL_NODE_ID;
     ReadValue SERVER_URL TANK3_LEVEL_NODE_ID;
     ClientDisconnect SERVER_URL]
  /\ calls (snd (get_machine_states (fresh_net healthy_plant)))
  = [ClientNew SERVER_URL; ClientConnect SERVER_URL;
     GetNode SERVER_URL MIXER_STATE_NODE_ID;
     GetNode SERVER_URL REACTOR_STATE_NODE_ID;
     GetNode SERVER_URL FILLER_STATE_NODE_ID;
     ReadValue SERVER_URL MIXER_STATE_NODE_ID;
     ReadValue SERVER_URL REACTOR_STATE_NODE_ID;
     ReadValue SERVER_URL FILLER_STATE_NODE_ID;
     ClientDisconnect SERVER_URL].
Proof.
  apply (proj2 (proj2 (standalone_queries_use_module_constants
                         (fresh_net healthy_plant)))).
  intros h c. reflexivity.
Defined.

(** With the database unreachable the lookup returns [None]; no exception
    reaches the caller. *)
Lemma lookup_failure_is_not_raised :
  first_failure unreachable_database
  = Some (mkExn Psycopg2Error "could not connect to server")
  /\ get_product_details "Product A" (fresh_db unreachable_database)
     = (Return None,
        {| database := unreachable_database;
           db_calls := [DbConnect [("dbname", "plantdb");
                                   ("user", "your_username");
                                   ("password", "your_password");
                                   ("host", "localhost");
                                   ("port", "5432")]];
           db_stdout := ["Error connecting to database: could not connect to server";
                         "Database error: could not connect to server"];
           result_set := None |})
  /\ ~ (exists e,
          fst (get_product_details "Product A" (fresh_db unreachable_database))
          = Raise e).
Proof.
  split; [reflexivity|]. split; [reflexivity|].
  intros [e He]. vm_compute in He. discriminate He.
Qed.

Lemma lookup_failure_returns_None_witness :
  fst (get_product_details "Product C" (fresh_db unreachable_database)) = Return None
  /\ fst (get_product_details "Product C" (fresh_db plant_database))
     = Return (Some (json_dumps (recipe_document "Product C" [])))
  /\ fst (get_product_details "Product C" (fresh_db unreachable_database))
     <> fst (get_product_details "Product C" (fresh_db plant_database)).
Proof.
  apply (lookup_failure_returns_None "Product C"
           (fresh_db unreachable_database) (fresh_db plant_database)
           (mkExn Psycopg2Error "could not connect to server"));
    reflexivity.
Defined.

Lemma query_text_independent_of_product_witness :
  executed_texts
    (db_calls (snd (get_product_details "Product A" (fresh_db plant_database))))
  = executed_texts
      (db_calls (snd (get_product_details "x' OR '1'='1" (fresh_db plant_database))))
  /\ exists new,
       db_calls (snd (get_product_details "x' OR '1'='1" (fresh_db plant_database)))
       = (db_calls (fresh_db plant_database) ++ new)%list
       /\ Forall (statement_is query ["x' OR '1'='1"]) new
       /\ executed_texts new = [query]
       /\ In (DbExecute query ["x' OR '1'='1"]) new.
Proof.
  split.
  - exact (proj2 (query_text_independent_of_product
                    "Product A" "x' OR '1'='1" (fresh_db plant_database))).
  - destruct (proj1 (query_text_independent_of_product
                       "x' OR '1'='1" "Product A" (fresh_db plant_database)))
      as [new [Hcalls [Hall Hrun]]].
    exists new. split; [exact Hcalls|]. split; [exact Hall|].
    exact (Hrun eq_refl eq_refl).
Defined.

Lemma recipe_ordered_by_tank_number_witness :
  exists lines,
    "product_name=Product A;recipe=material_name=Water;tank_number=1;quantity=10.0;material_name=Acid;tank_number=2;quantity=5.0;"
    = json_dumps (recipe_document "Product A" lines)
    /\ StronglySorted Z.le (map line_tank lines)
    /\ Forall2 row_converts
         (select_recipe (tables (database (fresh_db plant_database))) "Product A")
         lines.
Proof.
  apply (recipe_ordered_by_tank_number "Product A" (fresh_db plant_database)).
  reflexivity.
Defined.

Lemma connect_keeps_client_witness :
  OPCUABatchPlantClient.client
    (fst (snd (OPCUABatchPlantClient.connect
                 (OPCUABatchPlantClient.__init__ None, fresh_net unreachable_plant))))
  = Some (mkClient SERVER_URL).
Proof.
  apply (connect_keeps_client (OPCUABatchPlantClient.__init__ None)
           (fresh_net unreachable_plant)).
  reflexivity.
Defined.

Lemma failing_close_replaces_outcome_witness :
  fst (get_material_availability (fresh_net unclosable_plant))
  = Raise (mkExn OtherException "socket lost")
  /\ fst (get_machine_states (fresh_net unclosable_plant))
     = Raise (mkExn OtherException "socket lost").
Proof.
  apply (failing_close_replaces_outcome (fresh_net unclosable_plant)
           (mkExn OtherException "socket lost")).
  - reflexivity.
  - intros h. reflexivity.
Defined.

Lemma standalone_queries_raise_what_was_raised_witness :
  ((exists h c, reply unreachable_plant h c
                = Some (mkExn OtherException "connection refused"))
   \/ (exists v, builtin_float v = Raise (mkExn OtherException "connection refused")))
  /\ (exists h c, reply unreachable_plant h c
                  = Some (mkExn OtherException "connection refused")).
Proof.
  split.
  - apply (proj1 (standalone_queries_raise_what_was_raised
                    (fresh_net unreachable_plant)
                    (mkExn OtherException "connection refused"))).
    reflexivity.
  - apply (proj2 (standalone_queries_raise_what_was_raised
                    (fresh_net unreachable_plant)
                    (mkExn OtherException "connection refused"))).
    reflexivity.
Defined.

Lemma machine_states_returned_for_any_reading_witness :
  fst (get_machine_states (fresh_net healthy_plant))
  = Return (json_dumps (str_dict [("mixer_state", "running");
                                  ("reactor_state", "unplanned_downtime");
                                  ("filler_state", "unknown_state_9")])).
Proof.
  apply (machine_states_returned_for_any_reading (fresh_net healthy_plant)).
  intros h c. reflexivity.
Defined.

Lemma material_levels_convert_after_all_reads_witness :
  @get_material_availability BoundedFloat BoundedDumps
    (@mkNet BoundedFloat overfull_plant [] [])
  = (Raise (mkExn OverflowError "int too large to convert to float"),
     {| server := overfull_plant;
        calls := (material_script ++ [ClientDisconnect SERVER_URL])%list;
        stdout := ["Error reading material levels: int too large to convert to float"] |}).
Proof.
  apply (proj2 (@material_levels_convert_after_all_reads BoundedFloat BoundedDumps
                  (@mkNet BoundedFloat overfull_plant [] [])
                  (fun h c => eq_refl))
           (mkExn OverflowError "int too large to convert to float")).
  - reflexivity.
  - left. reflexivity.
Defined.

Lemma methods_need_a_session_witness :
  fst (OPCUABatchPlantClient.get_material_availability
         (OPCUABatchPlantClient.__init__ None, fresh_net healthy_plant))
  = Raise (mkExn AttributeError "'NoneType' object has no attribute 'get_node'")
  /\ calls (snd (snd (OPCUABatchPlantClient.get_machine_states
         (OPCUABatchPlantClient.__init__ None, fresh_net healthy_plant)))) = [].
Proof.
  destruct (methods_need_a_session (OPCUABatchPlantClient.__init__ None)
              (fresh_net healthy_plant) eq_refl) as [Hlevels Hstates].
  rewrite Hlevels, Hstates. split; reflexivity.
Defined.

Lemma decoder_is_injective_witness :
  MachineState.value MachineState.STARVED = 3 /\ 4 + 5 = 9.
Proof.
  split.
  - apply (decoder_is_injective tt (MachineState.value MachineState.STARVED) 3
             "starved"); reflexivity.
  - apply (decoder_is_injective tt (4 + 5) 9 "unknown_state_9"); reflexivity.
Defined.

Lemma decoder_accepts_floats_witness :
  OPCUABatchPlantClient._int_to_state_string (@PFloat WholeFloat 2) tt
  = (Return "running", tt)
  /\ OPCUABatchPlantClient._int_to_state_string (@PFloat WholeFloat 9) tt
     = (Return "unknown_state_9.0", tt).
Proof.
  split.
  - apply (proj1 (@decoder_accepts_floats WholeFloat unit tt 2) MachineState.RUNNING).
    reflexivity.
  - apply (proj2 (@decoder_accepts_floats WholeFloat unit tt 9)).
    right. exists 9. split; [reflexivity | right; lia].
Defined.

Lemma decoded_states_show_green_witness :
  status_icon "unplanned_downtime" = "🟢".
Proof.
  apply (decoded_states_show_green tt (PInt 6) "unplanned_downtime").
  reflexivity.
Defined.

Lemma lookup_lets_only_non_exceptions_escape_witness :
  isinstance_Exception (mkExn BaseExceptionOnly "KeyboardInterrupt") = false
  /\ fst (get_product_details "Product A" (fresh_db interrupted_database))
     = Raise (mkExn BaseExceptionOnly "KeyboardInterrupt").
Proof.
  split; [reflexivity|].
  apply (proj2 (lookup_lets_only_non_exceptions_escape "Product A"
                  (fresh_db interrupted_database)
                  (mkExn BaseExceptionOnly "KeyboardInterrupt")));
    reflexivity.
Defined.

(** The bounded runtime raises nothing but [OverflowError]. *)
Lemma bounded_float_raises_exceptions (v : @PyNum BoundedFloat) (e : Exn) :
  @builtin_float BoundedFloat v = Raise e -> isinstance_Exception e = true.
Proof.
  destruct v as [n|x]; cbn [builtin_float float_of_int BoundedFloat].
  - destruct (2 ^ 1024 <=? Z.abs n); intros Hq; [|discriminate Hq].
    injection Hq as <-. reflexivity.
  - discriminate.
Qed.

Lemma unconvertible_quantity_voids_recipe_witness :
  fst (@get_product_details BoundedFloat BoundedDumps "Product A"
         (@mkDb BoundedFloat oversized_database [] [] None))
  = Return None.
Proof.
  apply (@unconvertible_quantity_voids_recipe BoundedFloat BoundedDumps "Product A"
           (@mkDb BoundedFloat oversized_database [] [] None)).
  - reflexivity.
  - exists (@mkRow BoundedFloat "Acid" 2 (@PInt BoundedFloat (2 ^ 1024))),
           (mkExn OverflowError "int too large to convert to float").
    split; [right; left; reflexivity | reflexivity].
  - intros r e _ Hq. exact (bounded_float_raises_exceptions _ _ Hq).
Defined.

Lemma lookup_reports_failures_witness :
  db_stdout (snd (get_product_details "Product A" (fresh_db unreachable_database)))
  = ["Error connecting to database: could not connect to server";
     "Database error: could not connect to server"].
Proof.
  apply (proj1 (lookup_reports_failures "Product A" (fresh_db unreachable_database))
           (mkExn Psycopg2Error "could not connect to server"));
    reflexivity.
Defined.

Lemma recipe_printer_output_witness :
  print_recipe_details "Product A"
    [@mkRecipeLine WholeFloat "Water" 1 10; @mkRecipeLine WholeFloat "Acid" 2 5]
    (fresh_db plant_database)
  = (Return tt,
     {| database := plant_database;
        db_calls := [];
        db_stdout :=
          [(newline ++ "Recipe for: Product A")%string;
           "------------------------------------------------------------";
           "Material Name                  Tank #     Quantity  ";
           "------------------------------------------------------------";
           "Water                          1          10.0      ";
           "Acid                           2          5.0       "];
        result_set := None |})
  /\ print_recipe_details "Product C" [] (fresh_db plant_database)
     = (Return tt,
        {| database := plant_database;
           db_calls := [];
           db_stdout := ["No recipe found for product: Product C"];
           result_set := None |}).
Proof.
  split.
  - apply (recipe_printer_output "Product A"
             [@mkRecipeLine WholeFloat "Water" 1 10;
              @mkRecipeLine WholeFloat "Acid" 2 5]
             (fresh_db plant_database)).
    repeat first [apply Forall_nil | apply Forall_cons];
      apply Nat.leb_le; reflexivity.
  - apply (recipe_printer_output "Product C" [] (fresh_db plant_database)).
    apply Forall_nil.
Defined.

(** A material name with a character outside ASCII: the row is 52
    characters wide and one byte longer. *)
Lemma recipe_rows_are_aligned_witness :
  recipe_row (@mkRecipeLine WholeFloat "Säure" 2 5)
  = Return "Säure                          2          5.0       "
  /\ py_len "Säure                          2          5.0       " = 52%nat
  /\ String.length "Säure                          2          5.0       " = 53%nat.
Proof.
  assert (Hrow : recipe_row (@mkRecipeLine WholeFloat "Säure" 2 5)
                 = Return "Säure                          2          5.0       ")
    by reflexivity.
  split; [exact Hrow|]. split; [|reflexivity].
  rewrite (proj1 (proj2 (recipe_rows_are_aligned _ _ Hrow))). reflexivity.
Defined.

Lemma extraction_takes_first_answer_witness :
  @extract_json_from_response WholeFloat AnswerTexts
    (ODict [("output",
             OList [OStr "thinking";
                    ODict [("type", OStr "tool_use")];
                    ODict [("text", OInt 1)];
                    ODict [("text", OStr "no braces here")];
                    ODict [("text", OStr "{oops}")];
                    ODict [("text", OStr ("The answer is " ++ go_text ++ "."))];
                    ODict [("text", OStr "{}")]])])
  = Return (ODict [("decision", OBool true)]).
Proof.
  apply (proj1 (@extraction_takes_first_answer WholeFloat AnswerTexts
                  [("output",
                    OList [OStr "thinking";
                           ODict [("type", OStr "tool_use")];
                           ODict [("text", OInt 1)];
                           ODict [("text", OStr "no braces here")];
                           ODict [("text", OStr "{oops}")];
                           ODict [("text", OStr ("The answer is " ++ go_text ++ "."))];
                           ODict [("text", OStr "{}")]])]
                  _ eq_refl)
           [OStr "thinking";
            ODict [("type", OStr "tool_use")];
            ODict [("text", OInt 1)];
            ODict [("text", OStr "no braces here")];
            ODict [("text", OStr "{oops}")]]
           (ODict [("text", OStr ("The answer is " ++ go_text ++ "."))])
           [ODict [("text", OStr "{}")]]).
  - reflexivity.
  - repeat first [apply Forall_nil | apply Forall_cons]; try exact I.
    exists (mkExn ValueError "Expecting value"). reflexivity.
  - reflexivity.
Defined.

Lemma search_braces_is_outermost_span_witness :
  exists before inner after,
    "Plan: {a} then {b}." = before ++ "{a} then {b}" ++ after
    /\ "{a} then {b}" = "{" ++ inner ++ "}"
    /\ ~ occurs "{"%char before
    /\ ~ occurs "}"%char after.
Proof.
  apply (proj1 (search_braces_is_outermost_span "Plan: {a} then {b}.")
           "{a} then {b}").
  reflexivity.
Defined.

Lemma extraction_failures_witness :
  (mkExn ValueError "Expecting value" = could_not_extract
   /\ forall fields,
        ODict [("output", OStr "so {oops}"); ("decision", OStr "yes")] = ODict fields ->
        dict_get fields "decision" = None)
  \/ (exists fields text span e',
        ODict [("output", OStr "so {oops}"); ("decision", OStr "yes")] = ODict fields
        /\ dict_get fields "output" = Some (OStr text)
        /\ json_loads text = Raise e'
        /\ search_braces text = Some span
        /\ json_loads span = Raise (mkExn ValueError "Expecting value")).
Proof.
  apply (extraction_failures
           (ODict [("output", OStr "so {oops}"); ("decision", OStr "yes")])
           (mkExn ValueError "Expecting value")).
  reflexivity.
Defined.
